(** * torch-audio-training-utils: the waveform loader and the audio dataset

    A shallow embedding of [src/loading.py] ([enforce_length], [load_audio])
    and of [src/AudioDataset.py] ([AudioDataset.__init__], [__len__],
    [__getitem__]), followed by the properties the specification states
    about them.

    Conventions.
    - Python exceptions are values of [exn]; a computation that may raise
      returns a [result].
    - A local variable that may never have been assigned is an [option]:
      [None] is "unbound", and reading it raises [UnboundLocalError].
    - Python's [None] object is the constructor [PyNone] of [value].
    - Samples are rationals: float rounding of the tensor library is not
      modelled.  A Python [float] is an IEEE 754 binary64 number, with its
      rounding, its infinities and its NaN.
    - The message texts of exceptions raised inside the tensor library are
      abbreviated; the properties below speak of their kinds only.
    - The decoder ([torchaudio.load]), the resampler and the random
      permutation are collaborators outside the repository; they are
      parameters of the model. *)

From Stdlib Require Import String DecimalString ZArith QArith Bool Lia.
From Stdlib Require Import SpecFloat.
From Stdlib Require Import List Permutation.
Import ListNotations.

Local Open Scope string_scope.
Local Open Scope Z_scope.
Local Open Scope list_scope.

(** ** Python exceptions and results *)

Inductive exn : Type :=
| Exception (msg : string)
| TypeError (msg : string)
| UnboundLocalError (name : string)
| AttributeError (name : string)
| IndexError (msg : string)
| RuntimeError (msg : string)
| OverflowError (msg : string)
| ExternalError (code : nat).

Inductive result (A : Type) : Type :=
| Ok (a : A)
| Raise (e : exn).

Arguments Ok {A} a.
Arguments Raise {A} e.

Definition is_ok {A} (r : result A) : bool :=
  match r with Ok _ => true | Raise _ => false end.

Definition is_raise {A} (r : result A) : bool := negb (is_ok r).

Definition error_of {A} (r : result A) : option exn :=
  match r with Ok _ => None | Raise e => Some e end.

Module ResultMonad.
Definition ret {A} (a : A) : result A := Ok a.
Definition bind {A B} (r : result A) (k : A -> result B) : result B :=
  match r with
  | Ok a => k a
  | Raise e => Raise e
  end.
End ResultMonad.

Declare Scope result_scope.
Delimit Scope result_scope with result.
Notation "x <- c ;; k" := (ResultMonad.bind c (fun x => k))
  (at level 61, c at next level, right associativity) : result_scope.

(** ** Numbers, tensors and values *)

(** Python's [float]: binary64, 53 bits of mantissa, infinities at
    exponent 1024. *)
Definition prec : Z := 53.
Definition emax : Z := 1024.

(** [Union[int, float]]: the type of [enforce_length_s]. *)
Inductive number : Type :=
| PyInt (z : Z)
| PyFloat (f : spec_float).

Definition sample : Type := Q.

(** A waveform tensor: one-dimensional (samples) or two-dimensional
    (channels x samples, what [torchaudio.load] returns). *)
Inductive Tensor : Type :=
| Tensor1 (samples : list sample)
| Tensor2 (channels : list (list sample)).

(** [None] or a tensor. *)
Inductive value : Type :=
| PyNone
| PyTensor (t : Tensor).

(** [len(t.shape)] *)
Definition ndim (t : Tensor) : Z :=
  match t with
  | Tensor1 _ => 1
  | Tensor2 _ => 2
  end.

(** [len(t)]: the size of the first dimension. *)
Definition tensor_len (t : Tensor) : Z :=
  match t with
  | Tensor1 s => Z.of_nat (length s)
  | Tensor2 c => Z.of_nat (length c)
  end.

(** Number of channels of a waveform: a one-dimensional tensor is a single
    channel. *)
Definition channel_count (t : Tensor) : Z :=
  match t with
  | Tensor1 _ => 1
  | Tensor2 c => Z.of_nat (length c)
  end.

Fixpoint add_rows (a b : list sample) : list sample :=
  match a, b with
  | x :: a', y :: b' => Qplus x y :: add_rows a' b'
  | _, _ => []
  end.

Fixpoint column_sums (rows : list (list sample)) : list sample :=
  match rows with
  | [] => []
  | [r] => r
  | r :: rs => add_rows r (column_sums rs)
  end.

(** The arithmetic mean over the channels, sample by sample. *)
Definition column_means (rows : list (list sample)) : list sample :=
  map (fun s => Qred (Qdiv s (inject_Z (Z.of_nat (length rows)))))
      (column_sums rows).

(** [t.mean(dim=0)].  On a one-dimensional tensor torch reduces to a
    scalar; [load_audio] guards the call by [len(shape) > 1], so that case
    is never evaluated there. *)
Definition mean_dim0 (t : Tensor) : Tensor :=
  match t with
  | Tensor2 c => Tensor1 (column_means c)
  | Tensor1 s => Tensor1 s
  end.

(** [l[0:stop]] with Python's treatment of a negative bound. *)
Definition slice_to {A} (l : list A) (stop : Z) : list A :=
  if 0 <=? stop then firstn (Z.to_nat stop) l
  else firstn (Z.to_nat (Z.of_nat (length l) + stop)) l.

(** [t[0:stop]]: slices the first dimension. *)
Definition tensor_slice_to (t : Tensor) (stop : Z) : Tensor :=
  match t with
  | Tensor1 s => Tensor1 (slice_to s stop)
  | Tensor2 c => Tensor2 (slice_to c stop)
  end.

(** [len(x)] of an [int] or a [float]: neither has a length. *)
Definition len_number (x : number) : result Z :=
  match x with
  | PyInt _ => Raise (TypeError "object of type 'int' has no len()")
  | PyFloat _ => Raise (TypeError "object of type 'float' has no len()")
  end.

(** Calling an [int] or a [float] as a function. *)
Definition call_number (f : number) (waveform : Tensor) (rate : Z)
  : result value :=
  match f with
  | PyInt _ => Raise (TypeError "'int' object is not callable")
  | PyFloat _ => Raise (TypeError "'float' object is not callable")
  end.

(** [float(a)] of an [int], as the mixed product converts it: the
    nearest float, ties to even; an [int] beyond the range of floats
    raises. *)
Definition float_of_int (a : Z) : result spec_float :=
  match binary_normalize prec emax a 0 false with
  | S754_infinity _ =>
      Raise (OverflowError "int too large to convert to float")
  | x => Ok x
  end.

(** [a * x] for an [int] [a]: exact on integers, rounded to binary64 when
    [x] is a float. *)
Definition int_mul (a : Z) (x : number) : result number :=
  match x with
  | PyInt z => Ok (PyInt (a * z))
  | PyFloat f =>
      (x <- float_of_int a ;; Ok (PyFloat (SFmul prec emax x f)))%result
  end.

(** The order of an [int] and a [float].  Python compares the two exactly,
    without converting the [int]; a NaN is unordered ([None]). *)
Definition int_float_compare (a : Z) (f : spec_float) : option comparison :=
  match f with
  | S754_nan => None
  | S754_infinity s => Some (if s then Gt else Lt)
  | S754_zero _ => Some (a ?= 0)
  | S754_finite s m e =>
      let v := if s then Z.neg m else Z.pos m in
      Some (if 0 <=? e then a ?= v * 2 ^ e else a * 2 ^ (- e) ?= v)
  end.

(** [a == x], [a > x], [a < x] for an [int] [a]. *)
Definition int_eq (a : Z) (x : number) : bool :=
  match x with
  | PyInt z => a =? z
  | PyFloat f =>
      match int_float_compare a f with Some Eq => true | _ => false end
  end.

Definition int_gt (a : Z) (x : number) : bool :=
  match x with
  | PyInt z => z <? a
  | PyFloat f =>
      match int_float_compare a f with Some Gt => true | _ => false end
  end.

Definition int_lt (a : Z) (x : number) : bool :=
  match x with
  | PyInt z => a <? z
  | PyFloat f =>
      match int_float_compare a f with Some Lt => true | _ => false end
  end.

(** A slice bound must be an integer. *)
Definition slice_index (x : number) : result Z :=
  match x with
  | PyInt z => Ok z
  | PyFloat _ =>
      Raise (TypeError "slice indices must be integers or None or have an __index__ method")
  end.

(** [torch.zeros(n)] *)
Definition zeros (n : number) : result (list sample) :=
  match n with
  | PyInt z =>
      if z <? 0
      then Raise (RuntimeError "Trying to create tensor with negative dimension")
      else Ok (repeat (0 : Q) (Z.to_nat z))
  | PyFloat _ =>
      Raise (TypeError "zeros(): argument 'size' (position 1) must be tuple of ints, not float")
  end.

(** [tmp[0 : len(waveform)] = waveform] on a one-dimensional [tmp].  The
    slice has [n] elements.  The right-hand side is broadcast to it after
    its leading dimensions of size 1 are dropped: [n] samples are copied,
    a single sample (shape [(1,)] or [(1, 1)]) fills the slice, and
    anything else does not fit. *)
Definition assign_prefix (tmp : list sample) (waveform : Tensor)
  : result (list sample) :=
  let n := length (slice_to tmp (tensor_len waveform)) in
  match waveform with
  | Tensor1 s =>
      if Nat.eqb n (length s)
      then Ok (s ++ skipn n tmp)
      else match s with
           | [x] => Ok (repeat x n ++ skipn n tmp)
           | _ => Raise (RuntimeError "The expanded size of the tensor must match the existing size")
           end
  | Tensor2 [[x]] => Ok (repeat x n ++ skipn n tmp)
  | Tensor2 _ =>
      Raise (RuntimeError "The expanded size of the tensor must match the existing size")
  end.

(** ** loading.py: enforce_length *)

(** Lines 40-51: the computation after the four checks. *)
Definition enforce_length_body
  (waveform : Tensor) (sample_rate : Z) (enforce_length_s : number)
  : result value :=
  (length <- int_mul sample_rate enforce_length_s ;;
   if int_eq (tensor_len waveform) length then
     Ok (PyTensor waveform)
   else if int_gt (tensor_len waveform) length then
     stop <- slice_index length ;;
     Ok (PyTensor (tensor_slice_to waveform stop))
   else if int_lt (tensor_len waveform) length then
     tmp <- zeros length ;;
     tmp' <- assign_prefix tmp waveform ;;
     Ok (PyTensor (Tensor1 tmp'))
   else Ok PyNone)%result.

(** Lines 10-51. *)
Definition enforce_length
  (waveform : value) (sample_rate : Z) (enforce_length_s : number)
  : result value :=
  match waveform with
  | PyNone => Raise (Exception "Input waveform is not a torch.Tensor instance")
  | PyTensor t =>
      if tensor_len t <=? 0 then Raise (Exception "Waveform is empty")
      else
        (n <- len_number enforce_length_s ;;
         if n <=? 0 then Raise (Exception "Cannot enforce length less than 0")
         else if sample_rate <=? 0
              then Raise (Exception "Sample rate is less or equal 0")
              else enforce_length_body t sample_rate enforce_length_s)%result
  end.

(** ** Python lists *)

(** [l[i]]: a negative index counts from the end. *)
Definition py_index {A} (l : list A) (i : Z) : result A :=
  let n := Z.of_nat (length l) in
  let j := if i <? 0 then i + n else i in
  if (0 <=? j) && (j <? n) then
    match nth_error l (Z.to_nat j) with
    | Some a => Ok a
    | None => Raise (IndexError "list index out of range")
    end
  else Raise (IndexError "list index out of range").

(** [str(n)] for a length. *)
Definition str_nat (n : nat) : string :=
  NilEmpty.string_of_uint (Nat.to_uint n).

(** The message of line 72. *)
Definition dimension_message (sources labels : nat) : string :=
  String.append
    "Expected paths and labels to have save dimensions, but got len(sources):("
    (String.append (str_nat sources)
       (String.append ") and len(labels):("
          (String.append (str_nat labels) ")"))).

(** [str(e)] *)
Definition str (e : exn) : string :=
  match e with
  | Exception m | TypeError m | IndexError m | RuntimeError m
  | OverflowError m => m
  | UnboundLocalError n =>
      String.append "local variable '"
        (String.append n "' referenced before assignment")
  | AttributeError n =>
      String.append "'AudioDataset' object has no attribute '"
        (String.append n "'")
  | ExternalError _ => "decode error"
  end.

(** ** Effects: the outside world and what the program does to it *)

Definition source : Type := string.

Inductive event : Type :=
| Decode (src : source)     (* one call of [torchaudio.load] *)
| Sleep (seconds : Q)       (* [time.sleep] *)
| Output (line : string).   (* [print] *)

Definition is_decode (ev : event) : bool :=
  match ev with Decode _ => true | _ => false end.

(** How often the decoder was called in a trace. *)
Definition decode_count (tr : list event) : nat :=
  length (filter is_decode tr).

Section Program.

(** The state of everything outside the program (files, devices). *)
Context {World : Type}.
(** Opaque label values. *)
Context {label : Type}.

(** [torchaudio.load(source)]: the decoded waveform and its native rate,
    or an exception; the outcome may differ from one call to the next. *)
Variable load : source -> World -> World * result (value * Z).

(** [torchaudio.functional.resample(waveform, orig_freq, new_freq)] *)
Variable resample : Tensor -> Z -> Z -> result Tensor.

Record State : Type := mkState {
  world : World;
  trace : list event
}.

(** State and exceptions. *)
Definition M (A : Type) : Type := State -> State * result A.

Definition ret {A} (a : A) : M A := fun st => (st, Ok a).

Definition raise {A} (e : exn) : M A := fun st => (st, Raise e).

Definition lift {A} (r : result A) : M A := fun st => (st, r).

(** [try: m  except: on_exn  else: on_ok]; only [m] is guarded. *)
Definition try_ {A B} (m : M A) (on_ok : A -> M B) (on_exn : exn -> M B)
  : M B :=
  fun st =>
    match m st with
    | (st', Ok a) => on_ok a st'
    | (st', Raise e) => on_exn e st'
    end.

Definition bind {A B} (m : M A) (k : A -> M B) : M B :=
  try_ m k raise.

Definition emit (ev : event) : M unit :=
  fun st => (mkState (world st) (trace st ++ [ev]), Ok tt).

Definition sleep (seconds : Q) : M unit := emit (Sleep seconds).

Definition print (line : string) : M unit := emit (Output line).

(** Reading a local variable that may be unbound. *)
Definition read_local {A} (name : string) (v : option A) : M A :=
  match v with
  | Some a => ret a
  | None => raise (UnboundLocalError name)
  end.

Declare Scope prog_scope.
Delimit Scope prog_scope with prog.
Notation "x <- c ;; k" := (bind c (fun x => k))
  (at level 61, c at next level, right associativity) : prog_scope.
Notation "c ;;; k" := (bind c (fun _ => k))
  (at level 61, right associativity) : prog_scope.
Local Open Scope prog_scope.

Definition call_load (src : source) : M (value * Z) :=
  emit (Decode src) ;;;
  fun st =>
    let (w, r) := load src (world st) in (mkState w (trace st), r).

(** ** loading.py: load_audio *)

(** Lines 92-97: [for i in range(3): try: waveform, rate = load(source);
    break  except: sleep(0.5)].  The result is the binding of
    [(waveform, rate)] after the loop: [None] when no iteration assigned
    them. *)
Fixpoint decode_retry (attempts : nat) (src : source)
  : M (option (value * Z)) :=
  match attempts with
  | O => ret None
  | S n =>
      try_ (call_load src)
           (fun p => ret (Some p))
           (fun _ => sleep (1 # 2) ;;; decode_retry n src)
  end.

(** [x is not None] *)
Definition is_not_None {A} (x : option A) : bool :=
  match x with Some _ => true | None => false end.

(** Lines 103-116: the steps after the check of line 100. *)
Definition normalize (waveform : Tensor) (rate : Z)
  (mono : option bool) (sample_rate : option Z)
  (enforce_length_s : option number) : M value :=
  wr <- (match sample_rate with
         | Some sr =>
             if negb (rate =? sr)
             then w <- lift (resample waveform rate sr) ;; ret (w, sr)
             else ret (waveform, rate)
         | None => ret (waveform, rate)
         end) ;;
  let '(waveform, rate) := wr in
  let waveform :=
    if is_not_None mono && (1 <? ndim waveform)
    then mean_dim0 waveform
    else waveform in
  match enforce_length_s with
  | Some f => lift (call_number f waveform rate)
  | None => ret (PyTensor waveform)
  end.

(** Lines 54-116.  [mono] is [None] or a [bool] (declared [bool]),
    [sample_rate] is [None] or an [int], [enforce_length_s] is [None],
    an [int] or a [float]. *)
Definition load_audio (src : source) (mono : option bool)
  (sample_rate : option Z) (enforce_length_s : option number) : M value :=
  bound <- decode_retry 3 src ;;
  wr <- read_local "waveform" bound ;;
  match wr with
  | (PyNone, _) =>
      raise (Exception
               "File at source does not contain any data or does not exist")
  | (PyTensor waveform, rate) =>
      normalize waveform rate mono sample_rate enforce_length_s
  end.

(** ** AudioDataset.py *)

Record AudioDataset : Type := mkAudioDataset {
  _sources : list source;
  _labels : option (list label);
  _to_mono : option bool;
  _enforce_length_s : option number;
  _only_waveform : bool;
  sr : option Z
}.

(** Lines 53-73. *)
Definition __init__ (paths : list source) (labels : option (list label))
  (only_waveform : bool) (mono : option bool) (sample_rate : option Z)
  (enforce_length_s : option number) : result AudioDataset :=
  let self :=
    mkAudioDataset paths labels mono enforce_length_s only_waveform
                   sample_rate in
  match labels with
  | Some ls =>
      if negb (Nat.eqb (length paths) (length ls))
      then Raise (TypeError (dimension_message (length paths) (length ls)))
      else Ok self
  | None => Ok self
  end.

(** Lines 75-86. *)
Definition __len__ (self : AudioDataset) : Z :=
  Z.of_nat (length (_sources self)).

(** What [__getitem__] returns, by configuration. *)
Inductive item : Type :=
| Waveform (waveform : value)
| WaveformLabel (waveform : value) (l : label)
| Track (path : source) (waveform : value)
| TrackLabel (path : source) (waveform : value) (l : label).

(** [self.load_audio(self._sources[i], self.sr)], line 130.  The class
    defines [__init__], [__len__] and [__getitem__] and its instances the
    fields of [AudioDataset]; [load_audio] is a function of the module
    [loading], not an attribute of the object.  The attribute lookup is
    evaluated before the arguments and raises. *)
Definition self_load_audio (self : AudioDataset) (i : Z) : M value :=
  raise (AttributeError "load_audio").

(** Lines 134-136: the handler of a failed candidate. *)
Definition candidate_failed (self : AudioDataset) (i : Z) (e : exn)
  : M unit :=
  path <- lift (py_index (_sources self) i) ;;
  print (String.append "Failed to load audio at: " path) ;;;
  print (String.append "Reason: " (str e)).

(** Lines 128-136: the loop over the permutation.  [idx] and [waveform]
    are the local variables as they stand when the loop is entered;
    the result is their state when it is left. *)
Fixpoint scan (self : AudioDataset) (perm : list Z)
  (idx : Z) (waveform : option value) : M (Z * option value) :=
  match perm with
  | [] => ret (idx, waveform)
  | i :: rest =>
      try_ (self_load_audio self i)
           (fun w =>
              try_ (path <- lift (py_index (_sources self) i) ;;
                    print (String.append "Loaded instead: " path))
                   (fun _ => ret (i, Some w))
                   (fun e => candidate_failed self i e ;;;
                             scan self rest i (Some w)))
           (fun e => candidate_failed self i e ;;;
                     scan self rest idx waveform)
  end.

(** Lines 138-150. *)
Definition finish (self : AudioDataset) (idx : Z) (waveform : option value)
  : M item :=
  w <- read_local "waveform" waveform ;;
  match w with
  | PyNone => raise (Exception "All paths are invalid")
  | PyTensor _ =>
      if _only_waveform self then
        match _labels self with
        | None => ret (Waveform w)
        | Some ls => l <- lift (py_index ls idx) ;; ret (WaveformLabel w l)
        end
      else
        match _labels self with
        | None =>
            path <- lift (py_index (_sources self) idx) ;;
            ret (Track path w)
        | Some ls =>
            path <- lift (py_index (_sources self) idx) ;;
            l <- lift (py_index ls idx) ;;
            ret (TrackLabel path w l)
        end
  end.

(** Lines 119-124: the guarded first attempt. *)
Definition first_attempt (self : AudioDataset) (idx : Z) : M value :=
  path <- lift (py_index (_sources self) idx) ;;
  load_audio path (_to_mono self) (sr self) (_enforce_length_s self).

(** Lines 88-150.  [perm] is what [randperm(self.__len__()).tolist()]
    returns when it is called. *)
Definition __getitem__ (self : AudioDataset) (idx : Z) (perm : list Z)
  : M item :=
  try_ (first_attempt self idx)
       (fun w => finish self idx (Some w))
       (fun e =>
          path <- lift (py_index (_sources self) idx) ;;
          print (String.append "Failed to load data at: " path) ;;;
          print (String.append "Reason: " (str e)) ;;;
          iw <- scan self perm idx None ;;
          finish self (fst iw) (snd iw)).

(** ** The decoder seen from outside *)

(** What [n] successive calls of the decoder on [src] amount to, starting
    from the world [w]: every call raised, or a first call returned after
    [failures] calls that raised. *)
Inductive history : Type :=
| AllRaised (w : World)
| FirstSuccess (failures : nat) (w : World) (p : value * Z).

Fixpoint decode_history (n : nat) (src : source) (w : World) : history :=
  match n with
  | O => AllRaised w
  | S m =>
      match load src w with
      | (w', Ok p) => FirstSuccess 0 w' p
      | (w', Raise _) =>
          match decode_history m src w' with
          | AllRaised w'' => AllRaised w''
          | FirstSuccess k w'' p => FirstSuccess (S k) w'' p
          end
      end
  end.

(** [0 <= i < length()] *)
Definition valid_index (self : AudioDataset) (i : Z) : Prop :=
  0 <= i < __len__ self.

(** The valid indices [0, len) in order. *)
Definition indices (self : AudioDataset) : list Z :=
  map Z.of_nat (seq 0 (length (_sources self))).

End Program.

Arguments mkState {World} world trace.
Arguments mkAudioDataset {label} _ _ _ _ _ _.
Arguments AllRaised {World} w.
Arguments FirstSuccess {World} failures w p.

(** The events of [k] failed decode attempts, each followed by the pause. *)
Fixpoint retry_trace (k : nat) (src : source) : list event :=
  match k with
  | O => []
  | S k' => Decode src :: Sleep (1 # 2) :: retry_trace k' src
  end.

(** ** Concrete collaborators and datasets *)

(** A decoder on a fixed set of files: two mono files, one stereo file;
    every other source is unreadable. *)
Definition demo_load (src : source) (w : unit)
  : unit * result (value * Z) :=
  (w,
   if String.eqb src "valid_A" then
     Ok (PyTensor (Tensor2 [[1; 2; 3]%Q]), 2)
   else if String.eqb src "valid_C" then
     Ok (PyTensor (Tensor2 [[4; 5]%Q]), 2)
   else if String.eqb src "stereo" then
     Ok (PyTensor (Tensor2 [[1; 3]%Q; [3; 5]%Q]), 2)
   else Raise (ExternalError 2)).

(** A decoder that raises on its first two calls and decodes from the
    third on; the world counts the calls. *)
Definition flaky_load (src : source) (calls : nat)
  : nat * result (value * Z) :=
  (S calls,
   if Nat.ltb calls 2 then Raise (ExternalError 5)
   else Ok (PyTensor (Tensor2 [[1; 2; 3]%Q]), 2)).

Definition demo_resample (t : Tensor) (orig_freq new_freq : Z)
  : result Tensor := Ok t.

Definition st0 : @State unit := mkState tt [].

(** sources = [valid_A, corrupt_B, valid_C], no labels. *)
Definition scenario : @AudioDataset string :=
  mkAudioDataset ["valid_A"; "corrupt_B"; "valid_C"] None
                 (Some true) None false None.

(** The same sources, labelled. *)
Definition labelled_scenario : @AudioDataset string :=
  mkAudioDataset ["valid_A"; "corrupt_B"; "valid_C"] (Some ["a"; "b"; "c"])
                 (Some true) None false None.

(** A corpus in which nothing decodes. *)
Definition all_corrupt : @AudioDataset string :=
  mkAudioDataset ["corrupt_A"; "corrupt_B"] (Some ["a"; "b"])
                 (Some true) None false None.

(** The specification's wording of the exhaustion failure. *)
Definition ExhaustionError : exn :=
  Exception "no loadable sample found in the dataset".

(** ** Observations on traces, items and tensors *)

(** The pauses of a trace, in order. *)
Fixpoint pauses (tr : list event) : list Q :=
  match tr with
  | [] => []
  | Sleep q :: tr' => q :: pauses tr'
  | _ :: tr' => pauses tr'
  end.

(** The lines printed in a trace, in order. *)
Fixpoint printed (tr : list event) : list string :=
  match tr with
  | [] => []
  | Output l :: tr' => l :: printed tr'
  | _ :: tr' => printed tr'
  end.

(** The sources the decoder was called on, in order. *)
Fixpoint decoded (tr : list event) : list source :=
  match tr with
  | [] => []
  | Decode src :: tr' => src :: decoded tr'
  | _ :: tr' => decoded tr'
  end.

(** The waveform inside an item. *)
Definition waveform_of {label : Type} (it : @item label) : value :=
  match it with
  | Waveform w | WaveformLabel w _ | Track _ w | TrackLabel _ w _ => w
  end.

(** Every channel has [n] samples. *)
Definition rectangular (n : nat) (rows : list (list sample)) : Prop :=
  Forall (fun r => length r = n) rows.

(** How many decoder calls of a history raised. *)
Definition failures {World : Type} (h : @history World) (attempts : nat)
  : nat :=
  match h with
  | AllRaised _ => attempts
  | FirstSuccess k _ _ => k
  end.

(** Whether line 105 sends a decoded waveform to the resampler. *)
Definition needs_resample {World : Type} (h : @history World)
  (sample_rate : option Z) : bool :=
  match h, sample_rate with
  | FirstSuccess _ _ (PyTensor _, rate), Some sr => negb (rate =? sr)
  | _, _ => false
  end.

(** A resampler that always raises. *)
Definition failing_resample (t : Tensor) (orig_freq new_freq : Z)
  : result Tensor := Raise (RuntimeError "resample").

(** A resampler that keeps every second sample of each channel. *)
Fixpoint every_second (s : list sample) : list sample :=
  match s with
  | x :: _ :: s' => x :: every_second s'
  | s' => s'
  end.

Definition halving_resample (t : Tensor) (orig_freq new_freq : Z)
  : result Tensor :=
  Ok (match t with
      | Tensor1 s => Tensor1 (every_second s)
      | Tensor2 c => Tensor2 (map every_second c)
      end).

(** What the loop of lines 128-136 prints for the candidates [perm], and
    whether it runs to its end ([false]: a candidate was not an index of
    [sources], and formatting the message raised). *)
Fixpoint scan_log (sources : list source) (perm : list Z)
  : list event * bool :=
  match perm with
  | [] => ([], true)
  | i :: rest =>
      match py_index sources i with
      | Ok path =>
          (Output (String.append "Failed to load audio at: " path)
           :: Output "Reason: 'AudioDataset' object has no attribute 'load_audio'"
           :: fst (scan_log sources rest),
           snd (scan_log sources rest))
      | Raise _ => ([], false)
      end
  end.

(** The two lines printed per candidate. *)
Definition candidate_lines (sources : list source) (i : Z) : list string :=
  [String.append "Failed to load audio at: " (nth (Z.to_nat i) sources "");
   "Reason: 'AudioDataset' object has no attribute 'load_audio'"].

(** A dataset that asks for one second of audio. *)
Definition one_second : @AudioDataset string :=
  mkAudioDataset ["valid_A"; "corrupt_B"; "valid_C"] None
                 (Some true) (Some (PyInt 1)) false None.

(** Float literals, by mantissa and exponent as [float.hex] gives them:
    [0.1 = 0x1.999999999999ap-4], [0.57 = 0x1.23d70a3d70a3dp-1],
    [1.5 = 0x1.8p+0]. *)
Definition float_0_1 : spec_float :=
  S754_finite false 7205759403792794 (-56).

Definition float_0_57 : spec_float :=
  S754_finite false 5134103575202365 (-53).

Definition float_1_5 : spec_float :=
  S754_finite false 6755399441055744 (-52).

(** * Properties *)

(** ** Length enforcement *)

Section EnforceLength.

Lemma len_number_raises (x : number) : is_ok (len_number x) = false.
Proof. destruct x; reflexivity. Qed.

(** On a non-empty tensor the third check of [enforce_length] takes the
    length of a number, which raises whatever the number is: nothing
    after line 35 is evaluated. *)
Lemma enforce_length_nonempty (t : Tensor) (sample_rate : Z) (d : number) :
  0 < tensor_len t ->
  error_of (enforce_length (PyTensor t) sample_rate d)
  = error_of (len_number d).
Proof.
  intros Hlen. unfold enforce_length.
  destruct (tensor_len t <=? 0) eqn:E.
  - apply Z.leb_le in E. lia.
  - destruct d; reflexivity.
Qed.

(** [enforce_length] returns for no argument at all. *)
Lemma enforce_length_never_returns (w : value) (sample_rate : Z) (d : number) :
  is_ok (enforce_length w sample_rate d) = false.
Proof.
  destruct w as [|t]; [reflexivity|].
  unfold enforce_length.
  destruct (tensor_len t <=? 0); [reflexivity|].
  destruct d; reflexivity.
Qed.

(** What lines 40-51 compute once the checks are passed, on a
    one-dimensional waveform and an integer duration. *)
Lemma slice_to_firstn {A} (l : list A) (n : Z) :
  0 <= n -> slice_to l n = firstn (Z.to_nat n) l.
Proof.
  intros Hn. unfold slice_to.
  destruct (0 <=? n) eqn:E; [reflexivity|].
  apply Z.leb_gt in E. lia.
Qed.

Lemma body_equal (s : list sample) (sample_rate d : Z) :
  Z.of_nat (length s) = sample_rate * d ->
  enforce_length_body (Tensor1 s) sample_rate (PyInt d)
  = Ok (PyTensor (Tensor1 s)).
Proof.
  intros H. unfold enforce_length_body.
  cbn [int_mul ResultMonad.bind int_eq tensor_len].
  rewrite (proj2 (Z.eqb_eq _ _) H). reflexivity.
Qed.

Lemma body_longer (s : list sample) (sample_rate d : Z) :
  0 <= sample_rate * d < Z.of_nat (length s) ->
  enforce_length_body (Tensor1 s) sample_rate (PyInt d)
  = Ok (PyTensor (Tensor1 (firstn (Z.to_nat (sample_rate * d)) s))).
Proof.
  intros H. unfold enforce_length_body.
  cbn [int_mul ResultMonad.bind int_eq int_gt tensor_len].
  destruct (Z.eqb_spec (Z.of_nat (length s)) (sample_rate * d)); [lia|].
  rewrite (proj2 (Z.ltb_lt _ _) (proj2 H)).
  cbn. rewrite slice_to_firstn by lia. reflexivity.
Qed.

Lemma body_shorter (s : list sample) (sample_rate d : Z) :
  Z.of_nat (length s) < sample_rate * d ->
  enforce_length_body (Tensor1 s) sample_rate (PyInt d)
  = Ok (PyTensor
          (Tensor1 (s ++ repeat (0 : Q)
                           (Z.to_nat (sample_rate * d) - length s)))).
Proof.
  intros H. unfold enforce_length_body.
  cbn [int_mul ResultMonad.bind int_eq int_gt int_lt tensor_len].
  destruct (Z.eqb_spec (Z.of_nat (length s)) (sample_rate * d)); [lia|].
  destruct (Z.ltb_spec (sample_rate * d) (Z.of_nat (length s))); [lia|].
  rewrite (proj2 (Z.ltb_lt _ _) H).
  cbn [zeros].
  destruct (Z.ltb_spec (sample_rate * d) 0); [lia|].
  cbn [ResultMonad.bind assign_prefix tensor_len].
  rewrite slice_to_firstn by lia.
  rewrite Nat2Z.id, length_firstn, repeat_length.
  assert (Hmin : Nat.min (length s) (Z.to_nat (sample_rate * d)) = length s)
    by lia.
  rewrite Hmin, Nat.eqb_refl.
  cbn [ResultMonad.bind]. do 3 f_equal.
  generalize (Z.to_nat (sample_rate * d)) as m, (length s) as k.
  intros m k; revert m; induction k as [|k IH]; intros m.
  - rewrite Nat.sub_0_r. reflexivity.
  - destruct m as [|m]; [reflexivity|]. cbn. apply IH.
Qed.

End EnforceLength.

Create HintDb prog.
#[local] Hint Unfold normalize load_audio read_local bind try_ lift ret raise
  sleep print emit call_load : prog.

(** ** The waveform loader *)

Section LoaderProperties.

Context {World : Type}.
Variable load : source -> World -> World * result (value * Z).
Variable resample : Tensor -> Z -> Z -> result Tensor.

Ltac run :=
  repeat autounfold with prog in *; cbn [fst snd world trace] in *.

(** The steps after decoding touch neither the world nor the trace. *)
Lemma normalize_state t rate mono sample_rate els (st : @State World) :
  fst (normalize resample t rate mono sample_rate els st) = st.
Proof.
  run.
  destruct sample_rate as [r|]; [destruct (negb (rate =? r))|];
    try destruct (resample t rate r); cbn;
    destruct els as [d|]; try destruct d; reflexivity.
Qed.

(** Line 114 calls the duration as if it were a function. *)
Lemma normalize_enforce_raises t rate mono sample_rate d
  (st : @State World) :
  is_ok (snd (normalize resample t rate mono sample_rate (Some d) st))
  = false.
Proof.
  run.
  destruct sample_rate as [r|]; [destruct (negb (rate =? r))|];
    try destruct (resample t rate r); cbn; destruct d; reflexivity.
Qed.

(** Line 110 asks whether [mono] is [None], not whether it is true. *)
Lemma mono_flag_ignored t rate (b b' : bool) sample_rate els
  (st : @State World) :
  normalize resample t rate (Some b) sample_rate els st
  = normalize resample t rate (Some b') sample_rate els st.
Proof. reflexivity. Qed.

(** With [mono] a boolean, whatever is returned is one-dimensional. *)
Lemma normalize_single_channel t rate (b : bool) sample_rate els
  (st : @State World) v :
  snd (normalize resample t rate (Some b) sample_rate els st) = Ok v ->
  exists s, v = PyTensor (Tensor1 s).
Proof.
  run.
  destruct sample_rate as [r|]; [destruct (negb (rate =? r))|];
    try destruct (resample t rate r) as [t'|]; cbn;
    destruct els as [d|]; try destruct d; cbn; try discriminate;
    intros H; injection H as <-;
    match goal with
    | |- context [ndim ?x] => destruct x; cbn; eauto
    end.
Qed.

(** Whatever [load_audio] returns is a tensor, never [None]. *)
Lemma normalize_returns_tensor t rate mono sample_rate els
  (st : @State World) v :
  snd (normalize resample t rate mono sample_rate els st) = Ok v ->
  exists t', v = PyTensor t'.
Proof.
  run.
  destruct sample_rate as [r|]; [destruct (negb (rate =? r))|];
    try destruct (resample t rate r) as [t'|]; cbn;
    destruct els as [d|]; try destruct d; cbn; try discriminate;
    intros H; injection H as <-; eauto.
Qed.

(** The retry loop against the decoder's history. *)
Lemma decode_retry_history n src (st : @State World) :
  decode_retry load n src st
  = match decode_history load n src (world st) with
    | AllRaised w =>
        (mkState w (trace st ++ retry_trace n src), Ok None)
    | FirstSuccess k w p =>
        (mkState w (trace st ++ retry_trace k src ++ [Decode src]),
         Ok (Some p))
    end.
Proof.
  revert st. induction n as [|n IH]; intros st.
  - cbn. unfold ret. rewrite app_nil_r. destruct st; reflexivity.
  - cbn [decode_retry decode_history]. run.
    destruct (load src (world st)) as [w' [p|e]].
    + reflexivity.
    + rewrite IH. cbn [world trace].
      destruct (decode_history load n src w') as [w''|k w'' p];
        rewrite <- !app_assoc; reflexivity.
Qed.



Lemma decode_history_failures n src w k w' p :
  decode_history load n src w = FirstSuccess k w' p -> (k < n)%nat.
Proof.
  revert w k w' p. induction n as [|n IH]; intros w k w' p; cbn.
  - discriminate.
  - destruct (load src w) as [w1 [q|e]].
    + intros H; injection H as <- _ _. lia.
    + destruct (decode_history load n src w1) as [w2|k2 w2 q] eqn:E;
        [discriminate|].
      intros H; injection H as <- _ _. apply IH in E. lia.
Qed.

(** [load_audio] against the decoder's history. *)
Lemma load_audio_history src mono sample_rate els (st : @State World) :
  load_audio load resample src mono sample_rate els st
  = match decode_history load 3 src (world st) with
    | AllRaised w =>
        (mkState w (trace st ++ retry_trace 3 src),
         Raise (UnboundLocalError "waveform"))
    | FirstSuccess k w (PyNone, _) =>
        (mkState w (trace st ++ retry_trace k src ++ [Decode src]),
         Raise (Exception
                  "File at source does not contain any data or does not exist"))
    | FirstSuccess k w (PyTensor t, rate) =>
        normalize resample t rate mono sample_rate els
          (mkState w (trace st ++ retry_trace k src ++ [Decode src]))
    end.
Proof.
  unfold load_audio, bind at 1, try_ at 1.
  rewrite decode_retry_history.
  destruct (decode_history load 3 src (world st)) as [w|k w [[|t] rate]];
    reflexivity.
Qed.

Lemma load_audio_returns_tensor src mono sample_rate els
  (st : @State World) v :
  snd (load_audio load resample src mono sample_rate els st) = Ok v ->
  exists t, v = PyTensor t.
Proof.
  rewrite load_audio_history.
  destruct (decode_history load 3 src (world st)) as [w|k w [[|t] rate]];
    cbn [snd]; try discriminate.
  apply normalize_returns_tensor.
Qed.

(** With a duration given, [load_audio] returns for no source. *)
Lemma load_audio_enforce_raises src mono sample_rate d
  (st : @State World) :
  is_ok (snd (load_audio load resample src mono sample_rate (Some d) st))
  = false.
Proof.
  rewrite load_audio_history.
  destruct (decode_history load 3 src (world st)) as [w|k w [[|t] rate]];
    cbn [snd]; try reflexivity.
  apply normalize_enforce_raises.
Qed.


End LoaderProperties.

(** ** Python list indexing *)

Lemma py_index_valid {A} (l : list A) (i : Z) :
  0 <= i < Z.of_nat (length l) -> exists a, py_index l i = Ok a.
Proof.
  intros [Hlo Hhi]. unfold py_index.
  destruct (Z.ltb_spec i 0); [lia|].
  destruct (Z.leb_spec 0 i); [|lia].
  destruct (Z.ltb_spec i (Z.of_nat (length l))); [|lia].
  cbn [andb].
  destruct (nth_error l (Z.to_nat i)) as [a|] eqn:E; [eauto|].
  apply nth_error_None in E. lia.
Qed.

Lemma py_index_out_of_range {A} (l : list A) (i : Z) :
  Z.of_nat (length l) <= i \/ i < - Z.of_nat (length l) ->
  py_index l i = Raise (IndexError "list index out of range").
Proof.
  intros H. unfold py_index.
  destruct (Z.ltb_spec i 0).
  - destruct (Z.leb_spec 0 (i + Z.of_nat (length l))); [lia|]. reflexivity.
  - destruct (Z.leb_spec 0 i); [|lia].
    destruct (Z.ltb_spec i (Z.of_nat (length l))); [lia|]. reflexivity.
Qed.

Lemma py_index_In {A} (l : list A) (i : Z) a :
  py_index l i = Ok a -> In a l.
Proof.
  unfold py_index.
  destruct ((0 <=? _) && _); [|discriminate].
  destruct (nth_error l _) as [b|] eqn:E; [|discriminate].
  intros H; injection H as <-. eapply nth_error_In, E.
Qed.

(** ** The dataset *)

Section DatasetProperties.

Context {World label : Type}.
Variable load : source -> World -> World * result (value * Z).
Variable resample : Tensor -> Z -> Z -> result Tensor.

Ltac run :=
  repeat autounfold with prog in *; cbn [fst snd world trace] in *.

Lemma indices_valid (self : @AudioDataset label) (perm : list Z) :
  Permutation perm (indices self) -> Forall (valid_index self) perm.
Proof.
  intros HP. apply Forall_forall. intros i Hi.
  apply (Permutation_in _ HP) in Hi. unfold indices in Hi.
  apply in_map_iff in Hi. destruct Hi as [k [<- Hk]].
  apply in_seq in Hk. unfold valid_index, __len__. lia.
Qed.

(** No candidate of the loop is ever loaded: the attempt raises before
    it reaches the loader. *)
Lemma candidate_always_fails (self : @AudioDataset label) i
  (st : @State World) :
  self_load_audio self i st = (st, Raise (AttributeError "load_audio")).
Proof. reflexivity. Qed.

(** The loop leaves [idx] and [waveform] as it found them, and never
    calls the decoder. *)
Lemma scan_changes_nothing (self : @AudioDataset label) perm idx waveform :
  Forall (valid_index self) perm ->
  forall st : @State World,
  exists st',
    scan self perm idx waveform st = (st', Ok (idx, waveform))
    /\ world st' = world st
    /\ decode_count (trace st') = decode_count (trace st).
Proof.
  induction 1 as [|i perm Hi _ IH]; intros st.
  - exists st. repeat split.
  - destruct (py_index_valid (_sources self) i Hi) as [path Hpath].
    cbn [scan]. unfold try_ at 1. rewrite candidate_always_fails.
    unfold candidate_failed. run. rewrite Hpath.
    match goal with
    | |- context [scan self perm idx waveform ?s] =>
        destruct (IH s) as [st' [E [Hw Hc]]]
    end.
    exists st'. cbn [world trace] in *. split; [exact E|]. split; [exact Hw|].
    rewrite Hc. unfold decode_count. rewrite !filter_app. cbn.
    rewrite !app_nil_r. reflexivity.
Qed.

(** Once the first attempt has failed on a valid index, [__getitem__]
    fails: the loop binds no waveform, and line 138 reads the unbound
    local. *)
Lemma getitem_after_failure (self : @AudioDataset label) idx perm
  (st st1 : @State World) e :
  valid_index self idx ->
  Forall (valid_index self) perm ->
  first_attempt load resample self idx st = (st1, Raise e) ->
  exists st',
    __getitem__ load resample self idx perm st
    = (st', Raise (UnboundLocalError "waveform"))
    /\ world st' = world st1
    /\ decode_count (trace st') = decode_count (trace st1).
Proof.
  intros Hidx Hperm Hfirst.
  destruct (py_index_valid (_sources self) idx Hidx) as [path Hpath].
  unfold __getitem__, try_ at 1. rewrite Hfirst.
  run. rewrite Hpath.
  match goal with
  | |- context [scan self perm idx None ?s] =>
      destruct (scan_changes_nothing self perm idx None Hperm s)
        as [st' [E [Hw Hc]]]; rewrite E
  end.
  exists st'. unfold finish. run.
  split; [reflexivity|]. split; [exact Hw|].
  rewrite Hc. unfold decode_count. rewrite !filter_app. cbn.
  rewrite !app_nil_r. reflexivity.
Qed.

(** On a valid index of a dataset that [__init__] accepted, a loaded
    waveform is shaped and returned. *)
Lemma finish_returns paths labels only_waveform mono sample_rate els
  (self : @AudioDataset label) idx t (st : @State World) :
  __init__ paths labels only_waveform mono sample_rate els = Ok self ->
  valid_index self idx ->
  is_ok (snd (finish self idx (Some (PyTensor t)) st)) = true.
Proof.
  intros Hinit Hidx. unfold __init__ in Hinit.
  assert (Hlab : match labels with
                 | Some ls => length ls = length paths
                 | None => True
                 end /\ self = mkAudioDataset paths labels mono els
                                 only_waveform sample_rate).
  { destruct labels as [ls|].
    - destruct (Nat.eqb_spec (length paths) (length ls)); cbn in Hinit;
        [|discriminate].
      injection Hinit as <-. auto.
    - injection Hinit as <-. auto. }
  destruct Hlab as [Hlab ->].
  unfold valid_index, __len__ in Hidx. cbn [_sources] in Hidx.
  destruct (py_index_valid paths idx Hidx) as [path Hpath].
  unfold finish. run. cbn [_only_waveform _labels _sources].
  destruct only_waveform, labels as [ls|]; rewrite ?Hpath; cbn;
    try reflexivity;
    (destruct (py_index_valid ls idx) as [l Hl]; [lia|]);
    rewrite Hl; reflexivity.
Qed.

(** When every call of the decoder on [src] raises, so do [n] calls in a
    row. *)
Lemma decode_history_all_raise n src :
  (forall w, is_ok (snd (load src w)) = false) ->
  forall w, exists w', decode_history load n src w = AllRaised w'.
Proof.
  intros H. induction n as [|n IH]; intros w; cbn [decode_history].
  - eauto.
  - specialize (H w). destruct (load src w) as [w1 [p|e]]; [discriminate|].
    destruct (IH w1) as [w2 ->]. eauto.
Qed.

(** The first attempt on a source that never decodes: three calls raise,
    and line 100 of the loader reads the local [waveform] that no call
    has bound. *)
Lemma first_attempt_undecodable (self : @AudioDataset label) idx
  (st : @State World) :
  valid_index self idx ->
  (forall src w, In src (_sources self) -> is_ok (snd (load src w)) = false) ->
  exists st1,
    first_attempt load resample self idx st
    = (st1, Raise (UnboundLocalError "waveform")).
Proof.
  intros Hidx Hload.
  destruct (py_index_valid (_sources self) idx Hidx) as [path Hpath].
  unfold first_attempt, bind, try_, lift. rewrite Hpath.
  rewrite load_audio_history.
  destruct (decode_history_all_raise 3 path
              (fun w => Hload path w (py_index_In _ _ _ Hpath)) (world st))
    as [w' ->].
  eauto.
Qed.

(** C2.  On a corpus of which no source decodes, a request for a valid
    index exhausts the dataset: the first load fails, and so would the
    load of every candidate of the permutation.  [__getitem__] fails, but
    not with the exhaustion error that line 139 is written to raise, in
    the code's wording or in the specification's: line 138 reads the local
    [waveform], which no branch has bound, and that raises
    [UnboundLocalError]. *)
Theorem getitem_exhaustion_unbound_local
  (self : @AudioDataset label) idx perm (st : @State World) :
  valid_index self idx ->
  Permutation perm (indices self) ->
  (forall src w, In src (_sources self) -> is_ok (snd (load src w)) = false) ->
  is_ok (snd (first_attempt load resample self idx st)) = false
  /\ Forall (fun i => forall st' : @State World,
               is_ok (snd (first_attempt load resample self i st')) = false)
            perm
  /\ snd (__getitem__ load resample self idx perm st)
     = Raise (UnboundLocalError "waveform")
  /\ snd (__getitem__ load resample self idx perm st)
     <> Raise (Exception "All paths are invalid")
  /\ snd (__getitem__ load resample self idx perm st)
     <> Raise ExhaustionError.
Proof.
  intros Hidx Hperm Hload.
  pose proof (indices_valid self perm Hperm) as Hvalid.
  destruct (first_attempt_undecodable self idx st Hidx Hload) as [st1 E].
  destruct (getitem_after_failure self idx perm st st1 _ Hidx Hvalid E)
    as [st' [E' _]].
  rewrite E, E'. cbn [snd is_ok].
  split; [reflexivity|]. split.
  - apply Forall_forall. intros i Hi st2.
    destruct (first_attempt_undecodable self i st2
                (proj1 (Forall_forall _ _) Hvalid i Hi) Hload) as [st3 ->].
    reflexivity.
  - repeat split; discriminate.
Qed.

(** C10, as amended.  An index at or beyond the length, or below minus
    the length, makes [__getitem__] fail with the index error: the
    handler of the first attempt looks the source up again, outside any
    guard, before it would scan the permutation.  Nothing is decoded or
    printed. *)
Theorem getitem_out_of_range (self : @AudioDataset label) idx perm
  (st : @State World) :
  __len__ self <= idx \/ idx < - __len__ self ->
  __getitem__ load resample self idx perm st
  = (st, Raise (IndexError "list index out of range")).
Proof.
  intros H. unfold __len__ in H.
  unfold __getitem__, first_attempt. run.
  rewrite (py_index_out_of_range (_sources self) idx H). reflexivity.
Qed.

End DatasetProperties.

(** ** Construction *)

(** C8.  With labels given, [__init__] fails, with the [TypeError] of
    line 71, exactly when the two lengths differ; without labels it
    succeeds. *)
Theorem init_dimension_check {label : Type}
  (paths : list source) (labels : list label)
  only_waveform mono sample_rate els :
  error_of (__init__ paths (Some labels) only_waveform mono sample_rate els)
  = (if Nat.eqb (length labels) (length paths) then None
     else Some (TypeError
                  (dimension_message (length paths) (length labels))))
  /\ __init__ paths (Some labels) only_waveform mono sample_rate els
     = (if Nat.eqb (length labels) (length paths)
        then Ok (mkAudioDataset paths (Some labels) mono els only_waveform
                                sample_rate)
        else Raise (TypeError
                      (dimension_message (length paths) (length labels))))
  /\ __init__ paths (@None (list label)) only_waveform mono sample_rate els
     = Ok (mkAudioDataset paths None mono els only_waveform sample_rate).
Proof.
  unfold __init__. rewrite (Nat.eqb_sym (length labels)).
  destruct (Nat.eqb (length paths) (length labels)); repeat split.
Qed.

Example init_five_sources_three_labels :
  __init__ ["a"; "b"; "c"; "d"; "e"] (Some [1; 2; 3]) false (Some true)
           None None
  = Raise (TypeError
             "Expected paths and labels to have save dimensions, but got len(sources):(5) and len(labels):(3)").
Proof. reflexivity. Qed.

(** ** The scenarios of the specification, run on the code *)

Lemma perm_201 : Permutation [2; 0; 1] [0; 1; 2].
Proof.
  apply perm_trans with (l' := [0; 2; 1]).
  - apply perm_swap.
  - apply perm_skip, perm_swap.
Qed.

(** C1.  sources = [valid_A, corrupt_B, valid_C]: both valid sources load,
    the source at index 1 does not, and whatever permutation is drawn,
    requesting index 1 fails instead of returning a record of valid_A or
    valid_C. *)
Theorem substitution_scenario_fails (perm : list Z) :
  Permutation perm (indices scenario) ->
  is_ok (snd (first_attempt demo_load demo_resample scenario 0 st0)) = true
  /\ is_ok (snd (first_attempt demo_load demo_resample scenario 1 st0)) = false
  /\ is_ok (snd (first_attempt demo_load demo_resample scenario 2 st0)) = true
  /\ snd (__getitem__ demo_load demo_resample scenario 1 perm st0)
     = Raise (UnboundLocalError "waveform").
Proof.
  intros HP. repeat split.
  destruct (first_attempt demo_load demo_resample scenario 1 st0)
    as [st1 r] eqn:E.
  assert (Hr : exists e, r = Raise e).
  { vm_compute in E. injection E as _ <-. eauto. }
  destruct Hr as [e ->].
  destruct (getitem_after_failure demo_load demo_resample scenario 1 perm
              st0 st1 e) as [st' [E' _]].
  - unfold valid_index, __len__. cbn. lia.
  - apply indices_valid, HP.
  - exact E.
  - rewrite E'. reflexivity.
Qed.

Lemma substitution_scenario_fails_witness :
  Permutation [2; 0; 1] (indices scenario)
  /\ snd (__getitem__ demo_load demo_resample scenario 1 [2; 0; 1] st0)
     = Raise (UnboundLocalError "waveform").
Proof.
  split.
  - exact perm_201.
  - exact (proj2 (proj2 (proj2
             (substitution_scenario_fails [2; 0; 1] perm_201)))).
Defined.

Lemma getitem_exhaustion_unbound_local_witness :
  valid_index all_corrupt 0
  /\ snd (__getitem__ demo_load demo_resample all_corrupt 0 [1; 0] st0)
     = Raise (UnboundLocalError "waveform").
Proof.
  assert (Hidx : valid_index all_corrupt 0)
    by (unfold valid_index, __len__; simpl; lia).
  split; [exact Hidx|].
  refine (proj1 (proj2 (proj2
            (getitem_exhaustion_unbound_local demo_load demo_resample
               all_corrupt 0 [1; 0] st0 Hidx _ _)))).
  - apply perm_swap.
  - intros src w [<- | [<- | []]]; reflexivity.
Defined.

(** C10, as the specification words it, fails at [index = length()]: the
    call fails with the index error, and nothing was decoded or printed on
    the way. *)
Lemma index_equal_to_length_counterexample :
  __len__ labelled_scenario = 3
  /\ __getitem__ demo_load demo_resample labelled_scenario 3 [0; 1; 2] st0
     = (st0, Raise (IndexError "list index out of range")).
Proof. split; reflexivity. Qed.

Lemma getitem_out_of_range_witness :
  (__len__ scenario <= 3 \/ 3 < - __len__ scenario)
  /\ __getitem__ demo_load demo_resample scenario 3 [1; 2; 0] st0
     = (st0, Raise (IndexError "list index out of range")).
Proof.
  split.
  - left. unfold __len__. simpl. lia.
  - apply (getitem_out_of_range demo_load demo_resample scenario 3
             [1; 2; 0] st0).
    left. unfold __len__. simpl. lia.
Defined.

(** C3.  valid_A decodes to 3 samples at rate 2 and loads when no length
    is asked for; asked for 1 second at rate 2, [load_audio] does not
    return a waveform of 2 samples: it raises at line 114. *)
Theorem enforce_length_request_fails :
  snd (load_audio demo_load demo_resample "valid_A" (Some true) (Some 2)
         None st0)
  = Ok (PyTensor (Tensor1 [1; 2; 3]%Q))
  /\ snd (load_audio demo_load demo_resample "valid_A" (Some true) (Some 2)
            (Some (PyInt 1)) st0)
     = Raise (TypeError "'int' object is not callable").
Proof. split; reflexivity. Qed.

(** C6.  The stereo file decodes to 2 channels; with [mono] false
    [load_audio] returns the mean of the two channels all the same. *)
Theorem mono_false_still_downmixes :
  snd (demo_load "stereo" tt)
  = Ok (PyTensor (Tensor2 [[1; 3]%Q; [3; 5]%Q]), 2)
  /\ snd (load_audio demo_load demo_resample "stereo" (Some false) None
            None st0)
     = Ok (PyTensor (Tensor1 [2; 4]%Q)).
Proof. split; reflexivity. Qed.

(** C4.  Length 2, 3 and 1 against a target of 1 * 2 = 2 samples: in each
    of the three cases [enforce_length] raises at line 35 instead of
    returning the input, its first 2 samples, or the input and one zero. *)
Theorem enforce_length_three_cases_fail :
  enforce_length (PyTensor (Tensor1 [1; 2]%Q)) 1 (PyInt 2)
  = Raise (TypeError "object of type 'int' has no len()")
  /\ enforce_length (PyTensor (Tensor1 [1; 2; 3]%Q)) 1 (PyInt 2)
     = Raise (TypeError "object of type 'int' has no len()")
  /\ enforce_length (PyTensor (Tensor1 [1]%Q)) 1 (PyInt 2)
     = Raise (TypeError "object of type 'int' has no len()").
Proof. repeat split. Qed.

(** C5.  A non-empty buffer, a positive duration and a positive rate: the
    checks raise all the same, for an integer and for a fractional
    duration. *)
Theorem validation_rejects_valid_input :
  0 < tensor_len (Tensor1 [1]%Q)
  /\ enforce_length (PyTensor (Tensor1 [1]%Q)) 16000 (PyInt 1)
     = Raise (TypeError "object of type 'int' has no len()")
  /\ enforce_length (PyTensor (Tensor1 [1]%Q)) 16000 (PyFloat float_1_5)
     = Raise (TypeError "object of type 'float' has no len()").
Proof. repeat split. Qed.

(** C9.  On 3 samples and a target of 2 the first application raises, so
    there is no enforced waveform to apply the step to again; the
    composition of two applications is that same exception. *)
Theorem enforce_length_twice_fails :
  enforce_length (PyTensor (Tensor1 [1; 2; 3]%Q)) 1 (PyInt 2)
  = Raise (TypeError "object of type 'int' has no len()")
  /\ (w <- enforce_length (PyTensor (Tensor1 [1; 2; 3]%Q)) 1 (PyInt 2) ;;
      enforce_length w 1 (PyInt 2))%result
     = Raise (TypeError "object of type 'int' has no len()").
Proof. split; reflexivity. Qed.

(** ** The loader on a decoder with transient failures *)

(** Two calls raise, the third decodes: 3 calls, 2 pauses, and the
    waveform of the third call goes through the later steps. *)
Example load_audio_third_attempt :
  load_audio flaky_load demo_resample "a.wav" (Some true) None None
             (mkState 0%nat [])
  = (mkState 3%nat
       [Decode "a.wav"; Sleep (1 # 2); Decode "a.wav"; Sleep (1 # 2);
        Decode "a.wav"],
     Ok (PyTensor (Tensor1 [1; 2; 3]%Q))).
Proof. reflexivity. Qed.

(** Every call raises: 3 calls and no more. *)
Example load_audio_all_attempts_raise :
  load_audio demo_load demo_resample "corrupt_B" (Some true) None None st0
  = (mkState tt
       [Decode "corrupt_B"; Sleep (1 # 2); Decode "corrupt_B"; Sleep (1 # 2);
        Decode "corrupt_B"; Sleep (1 # 2)],
     Raise (UnboundLocalError "waveform")).
Proof. reflexivity. Qed.

(** * Further properties of the code *)

(** ** enforce_length, lines 31-38 *)

(** X1.  [enforce_length] never reports a non-positive duration or a
    non-positive rate, whatever its arguments: the two later checks are
    never decided. *)
Theorem enforce_length_later_checks_silent
  (w : value) (sample_rate : Z) (d : number) :
  error_of (enforce_length w sample_rate d)
  <> Some (Exception "Cannot enforce length less than 0")
  /\ error_of (enforce_length w sample_rate d)
     <> Some (Exception "Sample rate is less or equal 0").
Proof.
  destruct w as [|t]; cbn [enforce_length].
  - split; discriminate.
  - destruct (tensor_len t <=? 0); [split; discriminate|].
    destruct d; split; discriminate.
Qed.

(** ** enforce_length, lines 40-51 *)

(** X2.  On a one-dimensional waveform and an integer duration with a
    target of [sample_rate * d >= 0] samples, lines 40-51 return a waveform
    of exactly that many samples: the input cut to the target, followed by
    zeros up to the target. *)
Theorem enforce_length_body_exact (s : list sample) (sample_rate d : Z) :
  0 <= sample_rate * d ->
  exists s',
    enforce_length_body (Tensor1 s) sample_rate (PyInt d)
    = Ok (PyTensor (Tensor1 s'))
    /\ length s' = Z.to_nat (sample_rate * d)
    /\ s' = firstn (Z.to_nat (sample_rate * d)) s
            ++ repeat (0 : Q) (Z.to_nat (sample_rate * d) - length s).
Proof.
  intros Hpos.
  destruct (Z.lt_trichotomy (Z.of_nat (length s)) (sample_rate * d))
    as [Hlt | [Heq | Hgt]].
  - exists (s ++ repeat (0 : Q) (Z.to_nat (sample_rate * d) - length s)).
    split; [apply body_shorter; exact Hlt|].
    split.
    + rewrite length_app, repeat_length. lia.
    + rewrite firstn_all2 by lia. reflexivity.
  - exists s. split; [apply body_equal; exact Heq|].
    split; [lia|].
    rewrite firstn_all2 by lia.
    replace (Z.to_nat (sample_rate * d) - length s)%nat with 0%nat by lia.
    cbn. rewrite app_nil_r. reflexivity.
  - exists (firstn (Z.to_nat (sample_rate * d)) s).
    split; [apply body_longer; lia|].
    split.
    + rewrite length_firstn. lia.
    + replace (Z.to_nat (sample_rate * d) - length s)%nat with 0%nat by lia.
      cbn. rewrite app_nil_r. reflexivity.
Qed.

Lemma enforce_length_body_exact_witness :
  exists s',
    enforce_length_body (Tensor1 [1; 2; 3]%Q) 1 (PyInt 5)
    = Ok (PyTensor (Tensor1 s'))
    /\ length s' = Z.to_nat (1 * 5)
    /\ s' = firstn (Z.to_nat (1 * 5)) [1; 2; 3]%Q
            ++ repeat (0 : Q) (Z.to_nat (1 * 5) - length [1; 2; 3]%Q).
Proof. apply (enforce_length_body_exact [1; 2; 3]%Q 1 5). lia. Defined.

(** X3.  Lines 40-51 are idempotent on such inputs: run again on their own
    output with the same rate and duration they return it unchanged. *)
Theorem enforce_length_body_idempotent (s : list sample) (sample_rate d : Z) :
  0 <= sample_rate * d ->
  (w <- enforce_length_body (Tensor1 s) sample_rate (PyInt d) ;;
   match w with
   | PyTensor t => enforce_length_body t sample_rate (PyInt d)
   | PyNone => Ok PyNone
   end)%result
  = enforce_length_body (Tensor1 s) sample_rate (PyInt d)
  /\ is_ok (enforce_length_body (Tensor1 s) sample_rate (PyInt d)) = true.
Proof.
  intros Hpos.
  destruct (Z.lt_trichotomy (Z.of_nat (length s)) (sample_rate * d))
    as [Hlt | [Heq | Hgt]].
  - rewrite body_shorter by exact Hlt. cbn [ResultMonad.bind is_ok].
    split; [|reflexivity].
    apply body_equal. rewrite length_app, repeat_length. lia.
  - rewrite body_equal by exact Heq. cbn [ResultMonad.bind is_ok].
    split; [|reflexivity]. apply body_equal. exact Heq.
  - rewrite body_longer by lia. cbn [ResultMonad.bind is_ok].
    split; [|reflexivity].
    apply body_equal. rewrite length_firstn. lia.
Qed.

Lemma enforce_length_body_idempotent_witness :
  (w <- enforce_length_body (Tensor1 [1; 2; 3]%Q) 2 (PyInt 1) ;;
   match w with
   | PyTensor t => enforce_length_body t 2 (PyInt 1)
   | PyNone => Ok PyNone
   end)%result
  = enforce_length_body (Tensor1 [1; 2; 3]%Q) 2 (PyInt 1)
  /\ is_ok (enforce_length_body (Tensor1 [1; 2; 3]%Q) 2 (PyInt 1)) = true.
Proof. apply (enforce_length_body_idempotent [1; 2; 3]%Q 2 1). lia. Defined.

(** X4.  A negative target is not rejected by lines 40-51: the slice
    [waveform[0:length]] with a negative bound drops that many samples from
    the end. *)
Theorem enforce_length_body_negative_target
  (s : list sample) (sample_rate d : Z) :
  sample_rate * d < 0 ->
  enforce_length_body (Tensor1 s) sample_rate (PyInt d)
  = Ok (PyTensor
          (Tensor1 (firstn (length s - Z.to_nat (- (sample_rate * d))) s))).
Proof.
  intros Hneg. unfold enforce_length_body.
  cbn [int_mul ResultMonad.bind int_eq int_gt tensor_len].
  remember (sample_rate * d) as target eqn:Htarget. clear Htarget.
  destruct (Z.eqb_spec (Z.of_nat (length s)) target); [lia|].
  destruct (Z.ltb_spec target (Z.of_nat (length s))); [|lia].
  cbn [slice_index ResultMonad.bind tensor_slice_to]. unfold slice_to.
  destruct (Z.leb_spec 0 target); [lia|].
  do 4 f_equal. lia.
Qed.

Lemma enforce_length_body_negative_target_witness :
  enforce_length_body (Tensor1 [1; 2; 3]%Q) 1 (PyInt (-1))
  = Ok (PyTensor
          (Tensor1 (firstn (length [1; 2; 3]%Q - Z.to_nat (- (1 * -1)))
                           [1; 2; 3]%Q))).
Proof.
  apply (enforce_length_body_negative_target [1; 2; 3]%Q 1 (-1)). lia.
Defined.

(** ** enforce_length, lines 40-51, with a float duration *)

Lemma iter_pos_preserves {A} (P : A -> Prop) (f : A -> A) :
  (forall x, P x -> P (f x)) ->
  forall n x, P x -> P (iter_pos f n x).
Proof.
  intros Hf. induction n as [n IH|n IH|]; intros x Hx; cbn; auto.
Qed.

Lemma shr_1_nonneg mrs : 0 <= shr_m mrs -> 0 <= shr_m (shr_1 mrs).
Proof.
  destruct mrs as [m r s]. cbn [shr_m].
  destruct m as [|[p|p|]|[p|p|]]; cbn; lia.
Qed.

Lemma shr_nonneg mrs e n : 0 <= shr_m mrs -> 0 <= shr_m (fst (shr mrs e n)).
Proof.
  intros H. destruct n as [|p|p]; cbn [shr fst]; try exact H.
  apply (iter_pos_preserves (fun x => 0 <= shr_m x)); [|exact H].
  apply shr_1_nonneg.
Qed.

Lemma shr_fexp_nonneg m e l :
  0 <= m -> 0 <= shr_m (fst (shr_fexp prec emax m e l)).
Proof.
  intros H. unfold shr_fexp. apply shr_nonneg.
  destruct l as [|[]]; exact H.
Qed.

Lemma round_nearest_even_nonneg m l : 0 <= m -> 0 <= round_nearest_even m l.
Proof.
  intros H. destruct l as [|[]]; cbn; try exact H; [|lia].
  destruct (Z.even m); lia.
Qed.

(** Rounding a non-negative mantissa yields a zero, a finite float or an
    infinity: a NaN never comes out of a rounding. *)
Lemma binary_round_aux_not_nan sx mx ex lx :
  0 <= mx -> binary_round_aux prec emax sx mx ex lx <> S754_nan.
Proof.
  intros H. unfold binary_round_aux.
  pose proof (shr_fexp_nonneg mx ex lx H) as H1.
  destruct (shr_fexp prec emax mx ex lx) as [mrs' e'].
  cbn [fst] in H1.
  pose proof (shr_fexp_nonneg _ e' loc_Exact
                (round_nearest_even_nonneg _ (loc_of_shr_record mrs') H1))
    as H2.
  destruct (shr_fexp prec emax _ e' loc_Exact) as [mrs'' e''].
  cbn [fst] in H2.
  destruct (shr_m mrs'') as [|p|p]; [discriminate| |lia].
  destruct (Z.leb e'' _); discriminate.
Qed.

(** A converted [int] is a zero or a finite float. *)
Lemma float_of_int_finite a x :
  float_of_int a = Ok x ->
  (exists s, x = S754_zero s) \/ (exists s m e, x = S754_finite s m e).
Proof.
  unfold float_of_int.
  destruct (binary_normalize prec emax a 0 false) as [s|s| |s m e] eqn:E;
    intros H; try discriminate; injection H as <-; eauto.
  exfalso. revert E. unfold binary_normalize, binary_round.
  destruct a as [|p|p]; [discriminate| |];
    destruct (shl_align _ _ _) as [mz ez];
    apply binary_round_aux_not_nan; lia.
Qed.

(** The conversion rounds to the nearest float, ties to even, and refuses
    an [int] that rounds beyond the largest float. *)
Example float_of_int_rounding :
  float_of_int (2 ^ 53 + 1) = float_of_int (2 ^ 53)
  /\ float_of_int (2 ^ 53 + 3) = float_of_int (2 ^ 53 + 4)
  /\ is_ok (float_of_int (2 ^ 1024 - 2 ^ 970 - 1)) = true
  /\ float_of_int (2 ^ 1024 - 2 ^ 970)
     = Raise (OverflowError "int too large to convert to float").
Proof. vm_compute. repeat split. Qed.

(** The comparison of an [int] with a float is exact: 2^53 + 1 is above
    the float 2^53 it would be rounded to. *)
Example int_float_compare_exact :
  int_float_compare (2 ^ 53 + 1) (S754_finite false 4503599627370496 1)
  = Some Gt.
Proof. reflexivity. Qed.

(** When the product of a converted [int] and a float is a NaN. *)
Lemma int_float_product_nan a x f :
  float_of_int a = Ok x ->
  SFmul prec emax x f = S754_nan
  <-> f = S754_nan
      \/ exists s s', x = S754_zero s /\ f = S754_infinity s'.
Proof.
  intros Hx.
  destruct (float_of_int_finite a x Hx) as [[s ->] | [s [m [e ->]]]].
  - destruct f as [s'|s'| |s' m' e']; cbn; split;
      try discriminate; try (intros _; eauto; fail); try reflexivity;
      intros [H | [s1 [s2 [_ H]]]]; discriminate.
  - destruct f as [s'|s'| |s' m' e']; cbn [SFmul]; split;
      try discriminate; try (intros _; eauto; fail); try reflexivity;
      try (intros [H | [s1 [s2 [H _]]]]; discriminate).
    intros H. exfalso. revert H. apply binary_round_aux_not_nan. lia.
Qed.

(** Lines 40-51 on a float duration, by the order of the length and the
    rounded product. *)
Lemma body_float (t : Tensor) (sample_rate : Z) (f x : spec_float) :
  float_of_int sample_rate = Ok x ->
  enforce_length_body t sample_rate (PyFloat f)
  = match int_float_compare (tensor_len t) (SFmul prec emax x f) with
    | Some Eq => Ok (PyTensor t)
    | Some Gt =>
        Raise (TypeError "slice indices must be integers or None or have an __index__ method")
    | Some Lt =>
        Raise (TypeError "zeros(): argument 'size' (position 1) must be tuple of ints, not float")
    | None => Ok PyNone
    end.
Proof.
  intros Hx. unfold enforce_length_body. cbn [int_mul]. rewrite Hx.
  cbn [ResultMonad.bind int_eq int_gt int_lt].
  destruct (int_float_compare _ _) as [[]|]; reflexivity.
Qed.

Lemma body_float_overflow (t : Tensor) (sample_rate : Z) (f : spec_float) e :
  float_of_int sample_rate = Raise e ->
  enforce_length_body t sample_rate (PyFloat f) = Raise e.
Proof.
  intros Hx. unfold enforce_length_body. cbn [int_mul]. rewrite Hx.
  reflexivity.
Qed.

Lemma float_of_int_error a e :
  float_of_int a = Raise e ->
  e = OverflowError "int too large to convert to float".
Proof.
  unfold float_of_int.
  destruct (binary_normalize prec emax a 0 false); try discriminate.
  intros H; injection H as <-. reflexivity.
Qed.

(** X5.  With a float duration lines 40-51 neither trim nor pad.  They
    return a tensor exactly when [sample_rate * enforce_length_s], rounded
    to binary64, equals the length of the waveform, and the tensor is then
    the input itself; when they raise, it is the [TypeError] of a float
    used as a slice bound or as a size, or the [OverflowError] of a rate
    beyond the range of floats. *)
Theorem enforce_length_body_float_duration
  (t : Tensor) (sample_rate : Z) (f : spec_float) :
  (forall w,
     enforce_length_body t sample_rate (PyFloat f) = Ok (PyTensor w)
     <-> w = t
         /\ exists x, float_of_int sample_rate = Ok x
              /\ int_float_compare (tensor_len t) (SFmul prec emax x f)
                 = Some Eq)
  /\ (forall e,
        enforce_length_body t sample_rate (PyFloat f) = Raise e ->
        exists msg, e = TypeError msg \/ e = OverflowError msg).
Proof.
  destruct (float_of_int sample_rate) as [x|e0] eqn:Hx.
  - rewrite (body_float t sample_rate f x Hx).
    destruct (int_float_compare _ _) as [[]|] eqn:Hc; split;
      try discriminate;
      try (intros e H; injection H as <-; eauto; fail);
      intros w; (split; [|intros [Hw [x' [Hx' H]]]]);
      try discriminate;
      try (injection Hx' as <-; congruence).
    intros H; injection H as <-. eauto.
  - rewrite (body_float_overflow t sample_rate f e0 Hx). split.
    + intros w. split; [discriminate|].
      intros [_ [x' [Hx' _]]]. discriminate.
    + intros e H; injection H as <-.
      rewrite (float_of_int_error _ _ Hx). eauto.
Qed.

(** X6.  The chain [if == / elif > / elif <] of lines 42-51 falls through,
    and the function returns [None], exactly when the product is a NaN:
    the duration is a NaN, or it is an infinity and the rate is a zero.
    With an [int] duration the chain is exhaustive. *)
Theorem enforce_length_body_none_iff_nan
  (t : Tensor) (sample_rate : Z) (d : number) :
  enforce_length_body t sample_rate d = Ok PyNone
  <-> exists f x,
        d = PyFloat f /\ float_of_int sample_rate = Ok x
        /\ (f = S754_nan
            \/ exists s s', x = S754_zero s /\ f = S754_infinity s').
Proof.
  destruct d as [z|f].
  - split; [|intros [f [x [H _]]]; discriminate].
    unfold enforce_length_body.
    cbn [int_mul ResultMonad.bind int_eq int_gt int_lt slice_index zeros].
    destruct (Z.eqb_spec (tensor_len t) (sample_rate * z)); [discriminate|].
    destruct (Z.ltb_spec (sample_rate * z) (tensor_len t)); [discriminate|].
    destruct (Z.ltb_spec (tensor_len t) (sample_rate * z)); [|lia].
    destruct (sample_rate * z <? 0); [discriminate|].
    cbn [ResultMonad.bind].
    destruct (assign_prefix _ t); discriminate.
  - destruct (float_of_int sample_rate) as [x|e0] eqn:Hx.
    + rewrite (body_float t sample_rate f x Hx).
      pose proof (int_float_product_nan sample_rate x f Hx) as Hnan.
      destruct (SFmul prec emax x f) as [s|s| |s m e] eqn:Hp;
        cbn [int_float_compare].
      * split.
        -- destruct (tensor_len t ?= 0); discriminate.
        -- intros [f' [x' [Hf [Hx' H]]]].
           injection Hf as <-. injection Hx' as <-.
           apply Hnan in H. discriminate.
      * split.
        -- destruct s; discriminate.
        -- intros [f' [x' [Hf [Hx' H]]]].
           injection Hf as <-. injection Hx' as <-.
           apply Hnan in H. discriminate.
      * split; [|reflexivity].
        intros _. exists f, x. repeat split. apply Hnan. reflexivity.
      * split.
        -- destruct (0 <=? e);
             match goal with
             | |- context [?a ?= ?b] => destruct (a ?= b)
             end; discriminate.
        -- intros [f' [x' [Hf [Hx' H]]]].
           injection Hf as <-. injection Hx' as <-.
           apply Hnan in H. discriminate.
    + rewrite (body_float_overflow t sample_rate f e0 Hx).
      split; [discriminate|].
      intros [f' [x' [_ [Hx' _]]]]. discriminate.
Qed.

(** 0.1 s at 16000 Hz: the product is rounded to 1600.0, and a waveform of
    1600 samples is returned as it is. *)
Example enforce_length_body_tenth_of_a_second :
  enforce_length_body (Tensor1 (repeat (0 : Q) 1600)) 16000
                      (PyFloat float_0_1)
  = Ok (PyTensor (Tensor1 (repeat (0 : Q) 1600))).
Proof. vm_compute. reflexivity. Qed.

(** 0.57 s at 100 Hz: the product is 56.99999999999999, below the 57
    samples of the waveform, and is refused as a slice bound. *)
Example enforce_length_body_rounded_below :
  int_mul 100 (PyFloat float_0_57)
  = Ok (PyFloat (S754_finite false 8022036836253695 (-47)))
  /\ exists msg,
       enforce_length_body (Tensor1 (repeat (0 : Q) 57)) 100
                           (PyFloat float_0_57)
       = Raise (TypeError msg).
Proof. split; [vm_compute; reflexivity | eexists; reflexivity]. Qed.

(** A NaN duration, and an infinite duration at rate 0: [None]. *)
Example enforce_length_body_nan :
  enforce_length_body (Tensor1 [1; 2; 3]%Q) 16000 (PyFloat S754_nan)
  = Ok PyNone
  /\ enforce_length_body (Tensor1 [1; 2; 3]%Q) 0
                         (PyFloat (S754_infinity false))
     = Ok PyNone.
Proof. vm_compute. split; reflexivity. Qed.

(** A waveform of one channel and one sample is padded: the assignment of
    line 50 accepts its shape [(1, 1)]. *)
Example enforce_length_body_one_by_one :
  enforce_length_body (Tensor2 [[5]%Q]) 1 (PyInt 2)
  = Ok (PyTensor (Tensor1 [5; 0]%Q)).
Proof. reflexivity. Qed.

(** ** load_audio *)

Lemma pauses_app tr tr' : pauses (tr ++ tr') = pauses tr ++ pauses tr'.
Proof.
  induction tr as [|[src|q|l] tr IH]; cbn; rewrite ?IH; reflexivity.
Qed.

Lemma decoded_app tr tr' : decoded (tr ++ tr') = decoded tr ++ decoded tr'.
Proof.
  induction tr as [|[src|q|l] tr IH]; cbn; rewrite ?IH; reflexivity.
Qed.

Lemma printed_app tr tr' : printed (tr ++ tr') = printed tr ++ printed tr'.
Proof.
  induction tr as [|[src|q|l] tr IH]; cbn; rewrite ?IH; reflexivity.
Qed.

Lemma pauses_retry_trace k src :
  pauses (retry_trace k src) = repeat (1 # 2) k.
Proof. induction k as [|k IH]; cbn; rewrite ?IH; reflexivity. Qed.

Lemma decoded_retry_trace k src :
  decoded (retry_trace k src) = repeat src k.
Proof. induction k as [|k IH]; cbn; rewrite ?IH; reflexivity. Qed.

Lemma printed_retry_trace k src : printed (retry_trace k src) = [].
Proof. induction k as [|k IH]; cbn; rewrite ?IH; reflexivity. Qed.

Lemma repeat_snoc {A} (x : A) k : repeat x k ++ [x] = repeat x (S k).
Proof. induction k as [|k IH]; cbn; rewrite ?IH; reflexivity. Qed.

Lemma column_sums_length n rows :
  rows <> [] -> rectangular n rows -> length (column_sums rows) = n.
Proof.
  intros Hne Hrect. induction Hrect as [|r rows Hr Hrect IH];
    [congruence|].
  destruct rows as [|r' rows]; [exact Hr|].
  change (column_sums (r :: r' :: rows))
    with (add_rows r (column_sums (r' :: rows))).
  assert (Hlen : length (column_sums (r' :: rows)) = n)
    by (apply IH; discriminate).
  clear IH Hrect Hne. revert Hlen Hr.
  generalize (column_sums (r' :: rows)) as c. revert n.
  induction r as [|x r IHr]; intros n c Hc Hr.
  - cbn in *. exact Hr.
  - destruct c as [|y c]; cbn in *; [congruence|].
    destruct n as [|n]; [discriminate|].
    f_equal. apply IHr; congruence.
Qed.

Section LoaderExtras.

Context {World : Type}.
Variable load : source -> World -> World * result (value * Z).
Variable resample : Tensor -> Z -> Z -> result Tensor.

(** The trace of [load_audio]: the decoder calls and pauses of the
    history, and nothing else. *)
Lemma load_audio_trace src mono sample_rate els (st : @State World) :
  exists tr,
    trace (fst (load_audio load resample src mono sample_rate els st))
    = trace st ++ tr
    /\ pauses tr
       = repeat (1 # 2) (failures (decode_history load 3 src (world st)) 3)
    /\ printed tr = []
    /\ (exists n, decoded tr = repeat src n /\ (n <= 3)%nat).
Proof.
  rewrite load_audio_history.
  destruct (decode_history load 3 src (world st))
    as [w|k w [[|t] rate]] eqn:E;
    try rewrite (surjective_pairing (normalize _ _ _ _ _ _ _)),
        normalize_state;
    cbn [fst trace failures].
  - exists (retry_trace 3 src). repeat split.
    exists 3%nat. split; [reflexivity|lia].
  - exists (retry_trace k src ++ [Decode src]).
    rewrite pauses_app, printed_app, decoded_app, pauses_retry_trace,
      printed_retry_trace, decoded_retry_trace. cbn.
    rewrite app_nil_r. repeat split.
    exists (S k). split; [apply repeat_snoc|].
    apply decode_history_failures in E. lia.
  - exists (retry_trace k src ++ [Decode src]).
    rewrite pauses_app, printed_app, decoded_app, pauses_retry_trace,
      printed_retry_trace, decoded_retry_trace. cbn.
    rewrite app_nil_r. repeat split.
    exists (S k). split; [apply repeat_snoc|].
    apply decode_history_failures in E. lia.
Qed.

(** X7.  [load_audio] pauses 0.5 s after every decoder call that raised,
    the last one included, and at no other time: 1.5 s in all when the
    three calls raise, nothing when the first call returns. *)
Theorem load_audio_pauses src mono sample_rate els (st : @State World) :
  pauses (trace (fst (load_audio load resample src mono sample_rate els st)))
  = pauses (trace st)
    ++ repeat (1 # 2) (failures (decode_history load 3 src (world st)) 3).
Proof.
  destruct (load_audio_trace src mono sample_rate els st)
    as [tr [Htr [Hp _]]].
  rewrite Htr, pauses_app, Hp. reflexivity.
Qed.

(** X8.  [load_audio] prints nothing, and every decoder call it makes is
    on the source it was given. *)
Theorem load_audio_decodes_its_source src mono sample_rate els
  (st : @State World) :
  printed (trace (fst (load_audio load resample src mono sample_rate els st)))
  = printed (trace st)
  /\ exists n,
       decoded (trace (fst (load_audio load resample src mono sample_rate
                              els st)))
       = decoded (trace st) ++ repeat src n.
Proof.
  destruct (load_audio_trace src mono sample_rate els st)
    as [tr [Htr [_ [Hpr [n [Hd _]]]]]].
  rewrite Htr, printed_app, decoded_app, Hpr, Hd, app_nil_r.
  split; [reflexivity|]. exists n. reflexivity.
Qed.

End LoaderExtras.

Section LoaderPipeline.

Context {World : Type}.
Variable load : source -> World -> World * result (value * Z).

(** X9.  The resampler is consulted only when a sample rate is given and
    differs from the native rate of the decoded waveform: in every other
    case [load_audio] behaves the same whatever the resampler would do. *)
Theorem load_audio_resampler_unused
  (resample1 resample2 : Tensor -> Z -> Z -> result Tensor)
  src mono sample_rate els (st : @State World) :
  needs_resample (decode_history load 3 src (world st)) sample_rate = false ->
  load_audio load resample1 src mono sample_rate els st
  = load_audio load resample2 src mono sample_rate els st.
Proof.
  intros Hno. rewrite !load_audio_history.
  destruct (decode_history load 3 src (world st))
    as [w|k w [[|t] rate]]; try reflexivity.
  unfold normalize. destruct sample_rate as [r|]; [|reflexivity].
  cbn [needs_resample] in Hno. rewrite Hno. reflexivity.
Qed.

Variable resample : Tensor -> Z -> Z -> result Tensor.

(** X10.  When the rates differ the resampler gets the decoded waveform,
    its native rate and the requested rate; its exception is the exception
    of [load_audio], and its output is what is downmixed and returned. *)
Theorem load_audio_resamples_then_downmixes
  src (b : bool) sr (st : @State World) k w t rate :
  decode_history load 3 src (world st) = FirstSuccess k w (PyTensor t, rate) ->
  rate <> sr ->
  snd (load_audio load resample src (Some b) (Some sr) None st)
  = match resample t rate sr with
    | Ok t' => Ok (PyTensor (if 1 <? ndim t' then mean_dim0 t' else t'))
    | Raise e => Raise e
    end.
Proof.
  intros Hh Hne. rewrite load_audio_history, Hh.
  unfold normalize, bind, try_, lift, ret, raise.
  destruct (Z.eqb_spec rate sr); [contradiction|]. cbn [negb].
  destruct (resample t rate sr) as [t'|e]; reflexivity.
Qed.

(** X11.  With no resampling due, a decoded waveform comes back untouched
    when [mono] is [None] or the waveform is one-dimensional. *)
Theorem load_audio_returns_decoded
  src mono sample_rate (st : @State World) k w t rate :
  decode_history load 3 src (world st) = FirstSuccess k w (PyTensor t, rate) ->
  sample_rate = None \/ sample_rate = Some rate ->
  mono = None \/ ndim t = 1 ->
  snd (load_audio load resample src mono sample_rate None st)
  = Ok (PyTensor t).
Proof.
  intros Hh Hrate Hmono. rewrite load_audio_history, Hh.
  unfold normalize, bind, try_, lift, ret, raise.
  assert (Hkeep : (if is_not_None mono && (1 <? ndim t)
                   then mean_dim0 t else t) = t).
  { destruct Hmono as [-> | Hd]; [reflexivity|].
    rewrite Hd. rewrite andb_false_r. reflexivity. }
  destruct Hrate as [-> | ->].
  - cbn. rewrite Hkeep. reflexivity.
  - rewrite Z.eqb_refl. cbn. rewrite Hkeep. reflexivity.
Qed.

(** X12.  Whenever [load_audio] returns with [mono] a boolean, true or
    false, the waveform is one-dimensional. *)
Theorem load_audio_single_channel
  src (b : bool) sample_rate els (st : @State World) v :
  snd (load_audio load resample src (Some b) sample_rate els st) = Ok v ->
  exists s, v = PyTensor (Tensor1 s).
Proof.
  rewrite load_audio_history.
  destruct (decode_history load 3 src (world st)) as [w|k w [[|t] rate]];
    cbn [snd]; try discriminate.
  apply normalize_single_channel.
Qed.

(** X13.  Downmixing keeps the number of samples: a decoded waveform of
    one or more channels of [n] samples each, with no resampling due,
    comes back as the [n] channel means. *)
Theorem load_audio_downmix_length
  src (b : bool) sample_rate (st : @State World) k w rows rate n :
  decode_history load 3 src (world st)
  = FirstSuccess k w (PyTensor (Tensor2 rows), rate) ->
  sample_rate = None \/ sample_rate = Some rate ->
  rows <> [] ->
  rectangular n rows ->
  snd (load_audio load resample src (Some b) sample_rate None st)
  = Ok (PyTensor (Tensor1 (column_means rows)))
  /\ length (column_means rows) = n.
Proof.
  intros Hh Hrate Hne Hrect. split.
  - rewrite load_audio_history, Hh.
    unfold normalize, bind, try_, lift, ret, raise.
    destruct Hrate as [-> | ->]; [reflexivity|].
    rewrite Z.eqb_refl. reflexivity.
  - unfold column_means. rewrite length_map.
    apply column_sums_length; assumption.
Qed.

End LoaderPipeline.

Lemma load_audio_resampler_unused_witness :
  load_audio demo_load demo_resample "stereo" (Some true) (Some 2) None st0
  = load_audio demo_load failing_resample "stereo" (Some true) (Some 2) None
               st0.
Proof.
  apply (load_audio_resampler_unused demo_load demo_resample
           failing_resample "stereo" (Some true) (Some 2) None st0).
  reflexivity.
Defined.

Lemma load_audio_resamples_then_downmixes_witness :
  snd (load_audio demo_load halving_resample "stereo" (Some true) (Some 1)
         None st0)
  = match halving_resample (Tensor2 [[1; 3]%Q; [3; 5]%Q]) 2 1 with
    | Ok t' => Ok (PyTensor (if 1 <? ndim t' then mean_dim0 t' else t'))
    | Raise e => Raise e
    end.
Proof.
  apply (load_audio_resamples_then_downmixes demo_load halving_resample
           "stereo" true 1 st0 0%nat tt (Tensor2 [[1; 3]%Q; [3; 5]%Q]) 2).
  - reflexivity.
  - lia.
Defined.

Lemma load_audio_returns_decoded_witness :
  snd (load_audio demo_load demo_resample "stereo" None (Some 2) None st0)
  = Ok (PyTensor (Tensor2 [[1; 3]%Q; [3; 5]%Q])).
Proof.
  apply (load_audio_returns_decoded demo_load demo_resample "stereo" None
           (Some 2) st0 0%nat tt (Tensor2 [[1; 3]%Q; [3; 5]%Q]) 2).
  - reflexivity.
  - right. reflexivity.
  - left. reflexivity.
Defined.

Lemma load_audio_single_channel_witness :
  exists s, PyTensor (Tensor1 [2; 4]%Q) = PyTensor (Tensor1 s).
Proof.
  apply (load_audio_single_channel demo_load demo_resample "stereo" false
           None None st0 (PyTensor (Tensor1 [2; 4]%Q))).
  reflexivity.
Defined.

Lemma load_audio_downmix_length_witness :
  snd (load_audio demo_load demo_resample "stereo" (Some true) None None st0)
  = Ok (PyTensor (Tensor1 (column_means [[1; 3]%Q; [3; 5]%Q])))
  /\ length (column_means [[1; 3]%Q; [3; 5]%Q]) = 2%nat.
Proof.
  apply (load_audio_downmix_length demo_load demo_resample "stereo" true
           None st0 0%nat tt [[1; 3]%Q; [3; 5]%Q] 2 2%nat).
  - reflexivity.
  - left. reflexivity.
  - discriminate.
  - repeat constructor.
Defined.

(** ** Python list indexing, continued *)

Lemma py_index_error {A} (l : list A) (i : Z) e :
  py_index l i = Raise e -> e = IndexError "list index out of range".
Proof.
  unfold py_index.
  destruct ((0 <=? _) && (_ <? _)); [|congruence].
  destruct (nth_error l _); congruence.
Qed.

Lemma py_index_nth_error {A} (l : list A) (i : Z) :
  0 <= i < Z.of_nat (length l) ->
  exists a, nth_error l (Z.to_nat i) = Some a /\ py_index l i = Ok a.
Proof.
  intros H. destruct (py_index_valid l i H) as [a Ha]. exists a.
  split; [|exact Ha]. unfold py_index in Ha.
  destruct (Z.ltb_spec i 0); [lia|].
  destruct ((0 <=? i) && (i <? Z.of_nat (length l))); [|discriminate].
  destruct (nth_error l (Z.to_nat i)); congruence.
Qed.

Lemma py_index_negative {A} (l : list A) (i : Z) :
  - Z.of_nat (length l) <= i < 0 ->
  py_index l i = py_index l (i + Z.of_nat (length l)).
Proof.
  intros H. unfold py_index.
  destruct (Z.ltb_spec i 0); [|lia].
  destruct (Z.ltb_spec (i + Z.of_nat (length l)) 0); [lia|]. reflexivity.
Qed.

(** ** AudioDataset, continued *)

Section DatasetExtras.

Context {World label : Type}.
Variable load : source -> World -> World * result (value * Z).
Variable resample : Tensor -> Z -> Z -> result Tensor.

Ltac run :=
  repeat autounfold with prog in *; cbn [fst snd world trace] in *.

(** The loop, in closed form. *)
Lemma scan_exact (self : @AudioDataset label) perm idx waveform
  (st : @State World) :
  scan self perm idx waveform st
  = (mkState (world st)
       (trace st ++ fst (scan_log (_sources self) perm)),
     if snd (scan_log (_sources self) perm)
     then Ok (idx, waveform)
     else Raise (IndexError "list index out of range")).
Proof.
  revert st. induction perm as [|i perm IH]; intros st.
  - cbn. unfold ret. rewrite app_nil_r. destruct st; reflexivity.
  - cbn [scan scan_log]. unfold try_ at 1.
    rewrite candidate_always_fails. unfold candidate_failed. run.
    destruct (py_index (_sources self) i) as [path|e] eqn:E.
    + rewrite IH. cbn [world trace fst snd].
      rewrite <- !app_assoc. reflexivity.
    + rewrite (py_index_error _ _ _ E). cbn. rewrite app_nil_r.
      destruct st; reflexivity.
Qed.

(** [__getitem__] by cases on the first attempt. *)
Lemma getitem_cases (self : @AudioDataset label) idx perm
  (st : @State World) :
  __getitem__ load resample self idx perm st
  = match first_attempt load resample self idx st with
    | (st1, Ok w) => finish self idx (Some w) st1
    | (st1, Raise e) =>
        match py_index (_sources self) idx with
        | Raise e' => (st1, Raise e')
        | Ok path =>
            (mkState (world st1)
               (trace st1
                ++ [Output (String.append "Failed to load data at: " path);
                    Output (String.append "Reason: " (str e))]
                ++ fst (scan_log (_sources self) perm)),
             if snd (scan_log (_sources self) perm)
             then Raise (UnboundLocalError "waveform")
             else Raise (IndexError "list index out of range"))
        end
    end.
Proof.
  unfold __getitem__, try_ at 1.
  destruct (first_attempt load resample self idx st) as [st1 [w|e]];
    [reflexivity|].
  run. destruct (py_index (_sources self) idx) as [path|e']; [|reflexivity].
  rewrite scan_exact. cbn [world trace fst snd].
  rewrite <- !app_assoc.
  destruct (snd (scan_log (_sources self) perm)); reflexivity.
Qed.

Lemma first_attempt_tensor (self : @AudioDataset label) idx
  (st st1 : @State World) w :
  first_attempt load resample self idx st = (st1, Ok w) ->
  exists t, w = PyTensor t.
Proof.
  intros E. unfold first_attempt, bind, try_, lift, raise in E.
  destruct (py_index (_sources self) idx) as [path|]; [|discriminate].
  apply (load_audio_returns_tensor load resample path (_to_mono self)
           (sr self) (_enforce_length_s self) st).
  rewrite E. reflexivity.
Qed.

(** What [finish] can do with a tensor. *)
Lemma finish_outcome (self : @AudioDataset label) idx t
  (st st' : @State World) r :
  finish self idx (Some (PyTensor t)) st = (st', r) ->
  st' = st
  /\ match r with
     | Ok it => waveform_of it = PyTensor t
     | Raise e => e = IndexError "list index out of range"
     end.
Proof.
  unfold finish. run.
  destruct (_only_waveform self), (_labels self) as [ls|];
    try destruct (py_index (_sources self) idx) as [path|e1] eqn:E1;
    try destruct (py_index ls idx) as [l|e2] eqn:E2;
    intros H; injection H as <- <-; split; try reflexivity;
    eauto using py_index_error.
Qed.

Lemma init_ok paths (labels : option (list label)) only_waveform mono
  sample_rate els self :
  __init__ paths labels only_waveform mono sample_rate els = Ok self ->
  self = mkAudioDataset paths labels mono els only_waveform sample_rate
  /\ match labels with
     | Some ls => length ls = length paths
     | None => True
     end.
Proof.
  unfold __init__. destruct labels as [ls|].
  - destruct (Nat.eqb_spec (length paths) (length ls)); cbn;
      [|discriminate].
    intros H; injection H as <-. auto.
  - intros H; injection H as <-. auto.
Qed.

Lemma scan_log_decoded sources perm :
  decoded (fst (scan_log sources perm)) = [].
Proof.
  induction perm as [|i perm IH]; [reflexivity|].
  cbn [scan_log]. destruct (py_index sources i); [|reflexivity].
  cbn. exact IH.
Qed.

Lemma scan_log_valid sources perm :
  Forall (fun i => 0 <= i < Z.of_nat (length sources)) perm ->
  snd (scan_log sources perm) = true
  /\ printed (fst (scan_log sources perm))
     = flat_map (candidate_lines sources) perm.
Proof.
  induction 1 as [|i perm Hi _ [IHs IHp]]; [split; reflexivity|].
  cbn [scan_log flat_map].
  destruct (py_index_nth_error sources i Hi) as [path [Hn Hp]].
  rewrite Hp. cbn [fst snd printed]. split; [exact IHs|].
  rewrite IHp. unfold candidate_lines.
  rewrite (nth_error_nth _ _ _ Hn). reflexivity.
Qed.

(** The first attempt decodes the requested source only, at most 3 times,
    and prints nothing. *)
Lemma first_attempt_trace (self : @AudioDataset label) idx
  (st : @State World) :
  printed (trace (fst (first_attempt load resample self idx st)))
  = printed (trace st)
  /\ exists n, (n <= 3)%nat
       /\ decoded (trace (fst (first_attempt load resample self idx st)))
          = decoded (trace st)
            ++ match py_index (_sources self) idx with
               | Ok path => repeat path n
               | Raise _ => []
               end.
Proof.
  unfold first_attempt, bind, try_, lift, raise.
  destruct (py_index (_sources self) idx) as [path|e].
  - destruct (load_audio_trace load resample path (_to_mono self) (sr self)
                (_enforce_length_s self) st)
      as [tr [Htr [_ [Hpr [n [Hd Hn]]]]]].
    destruct (load_audio load resample path (_to_mono self) (sr self)
                (_enforce_length_s self) st) as [st1 [w|e]];
      cbn [fst] in *; rewrite Htr, printed_app, decoded_app, Hpr, Hd,
        app_nil_r; (split; [reflexivity|]); exists n; auto.
  - cbn [fst]. split; [reflexivity|]. exists 0%nat.
    rewrite app_nil_r. split; [lia|reflexivity].
Qed.

(** X14.  [__getitem__] returns only what the first attempt loaded: when
    it returns an item, the first attempt on the requested index had
    succeeded, the item carries that waveform, which is a tensor, and
    nothing happened after the first attempt.  No other sample is ever
    substituted. *)
Theorem getitem_returns_requested_only (self : @AudioDataset label) idx perm
  (st st' : @State World) it :
  __getitem__ load resample self idx perm st = (st', Ok it) ->
  first_attempt load resample self idx st = (st', Ok (waveform_of it))
  /\ exists t, waveform_of it = PyTensor t.
Proof.
  rewrite getitem_cases.
  destruct (first_attempt load resample self idx st) as [st1 [w|e]] eqn:E.
  - destruct (first_attempt_tensor self idx st st1 w E) as [t ->].
    intros H. destruct (finish_outcome self idx t st1 st' (Ok it) H)
      as [-> Hw].
    rewrite Hw. eauto.
  - destruct (py_index (_sources self) idx); [|discriminate].
    destruct (snd (scan_log (_sources self) perm)); discriminate.
Qed.

(** X15.  Whatever the index and the permutation, a failure of
    [__getitem__] is the index error of a list lookup or the unbound local
    [waveform]: no exception of the decoder or of the resampler reaches
    the caller, and the exception of line 139 is never raised. *)
Theorem getitem_error_kinds (self : @AudioDataset label) idx perm
  (st : @State World) e :
  snd (__getitem__ load resample self idx perm st) = Raise e ->
  e = IndexError "list index out of range"
  \/ e = UnboundLocalError "waveform".
Proof.
  rewrite getitem_cases.
  destruct (first_attempt load resample self idx st) as [st1 [w|e1]] eqn:E.
  - destruct (first_attempt_tensor self idx st st1 w E) as [t ->].
    destruct (finish self idx (Some (PyTensor t)) st1) as [st' r] eqn:F.
    destruct (finish_outcome self idx t st1 st' r F) as [_ Hr].
    cbn [snd]. intros ->. left. exact Hr.
  - destruct (py_index (_sources self) idx) as [path|e'] eqn:P; cbn [snd].
    + destruct (snd (scan_log (_sources self) perm));
        intros H; injection H as <-; auto.
    + intros H; injection H as <-. left. eapply py_index_error, P.
Qed.

(** X16.  One call of [__getitem__] calls the decoder at most 3 times, and
    only on the requested source: the candidates of the permutation are
    never decoded. *)
Theorem getitem_decodes_requested_only (self : @AudioDataset label) idx perm
  (st : @State World) :
  exists n, (n <= 3)%nat
    /\ decoded (trace (fst (__getitem__ load resample self idx perm st)))
       = decoded (trace st)
         ++ match py_index (_sources self) idx with
            | Ok path => repeat path n
            | Raise _ => []
            end.
Proof.
  destruct (first_attempt_trace self idx st) as [_ [n [Hn Hd]]].
  exists n. split; [exact Hn|].
  rewrite getitem_cases.
  destruct (first_attempt load resample self idx st) as [st1 [w|e1]] eqn:E;
    cbn [fst] in Hd.
  - destruct (first_attempt_tensor self idx st st1 w E) as [t ->].
    destruct (finish self idx (Some (PyTensor t)) st1) as [st' r] eqn:F.
    destruct (finish_outcome self idx t st1 st' r F) as [-> _].
    exact Hd.
  - destruct (py_index (_sources self) idx) as [path|e']; cbn [fst trace].
    + rewrite !decoded_app, scan_log_decoded, Hd. cbn.
      rewrite app_nil_r. reflexivity.
    + exact Hd.
Qed.

(** X17.  A dataset built with a duration to enforce never returns an
    item, whatever the index, the permutation and the files. *)
Theorem getitem_with_duration_never_returns (self : @AudioDataset label)
  idx perm (st : @State World) d :
  _enforce_length_s self = Some d ->
  is_ok (snd (__getitem__ load resample self idx perm st)) = false.
Proof.
  intros Hd.
  destruct (__getitem__ load resample self idx perm st) as [st' [it|e]] eqn:G;
    [|reflexivity].
  apply getitem_returns_requested_only in G. destruct G as [G _].
  unfold first_attempt, bind, try_, lift, raise in G.
  destruct (py_index (_sources self) idx) as [path|]; [|discriminate].
  pose proof (load_audio_enforce_raises load resample path (_to_mono self)
                (sr self) d st) as Hraise.
  rewrite Hd in G. rewrite G in Hraise. discriminate.
Qed.

(** X18.  On a valid index of a constructed dataset, a first attempt that
    loads [w] is all that happens, and the item is shaped by the
    configuration: the waveform alone or with its path, and with the label
    of the same index when labels were given. *)
Theorem getitem_success_shape paths labels only_waveform mono sample_rate els
  (self : @AudioDataset label) idx perm (st st1 : @State World) w :
  __init__ paths labels only_waveform mono sample_rate els = Ok self ->
  valid_index self idx ->
  first_attempt load resample self idx st = (st1, Ok w) ->
  exists path,
    nth_error paths (Z.to_nat idx) = Some path
    /\ match labels with
       | None =>
           __getitem__ load resample self idx perm st
           = (st1, Ok (if only_waveform then Waveform w else Track path w))
       | Some ls =>
           exists l,
             nth_error ls (Z.to_nat idx) = Some l
             /\ __getitem__ load resample self idx perm st
                = (st1, Ok (if only_waveform then WaveformLabel w l
                            else TrackLabel path w l))
       end.
Proof.
  intros Hinit Hidx E.
  destruct (init_ok _ _ _ _ _ _ _ Hinit) as [-> Hlab].
  unfold valid_index, __len__ in Hidx. cbn [_sources] in Hidx.
  destruct (py_index_nth_error paths idx Hidx) as [path [Hn Hp]].
  exists path. split; [exact Hn|].
  destruct (first_attempt_tensor _ idx st st1 w E) as [t ->].
  rewrite getitem_cases, E. unfold finish. run.
  cbn [_only_waveform _labels _sources].
  destruct labels as [ls|].
  - destruct (py_index_nth_error ls idx) as [l [Hnl Hl]]; [lia|].
    exists l. split; [exact Hnl|].
    destruct only_waveform; rewrite ?Hp, Hl; reflexivity.
  - destruct only_waveform; rewrite ?Hp; reflexivity.
Qed.

(** X19.  On a constructed dataset a negative index in [-length(), 0)
    addresses from the end: [__getitem__] behaves exactly as on that index
    plus [length()]. *)
Theorem getitem_negative_index paths labels only_waveform mono sample_rate
  els (self : @AudioDataset label) idx perm (st : @State World) :
  __init__ paths labels only_waveform mono sample_rate els = Ok self ->
  - __len__ self <= idx < 0 ->
  __getitem__ load resample self idx perm st
  = __getitem__ load resample self (idx + __len__ self) perm st.
Proof.
  intros Hinit Hidx.
  destruct (init_ok _ _ _ _ _ _ _ Hinit) as [-> Hlab].
  unfold __len__ in *. cbn [_sources] in *.
  rewrite !getitem_cases. unfold first_attempt, finish.
  cbn [_only_waveform _labels _sources].
  rewrite <- (py_index_negative paths idx Hidx).
  assert (Hl : match labels with
               | Some ls =>
                   py_index ls (idx + Z.of_nat (length paths))
                   = py_index ls idx
               | None => True
               end).
  { destruct labels as [ls|]; [|exact I].
    rewrite <- Hlab. symmetry. apply py_index_negative. lia. }
  destruct labels as [ls|]; [rewrite Hl|]; reflexivity.
Qed.

(** X20.  When the first attempt on a valid index fails, the candidates
    being indices of the dataset, [__getitem__] prints the requested path
    and the reason, then for every candidate of the permutation, in order,
    its path and the same reason (the missing attribute), and nothing
    else; the world is as the first attempt left it. *)
Theorem getitem_failure_report (self : @AudioDataset label) idx perm
  (st st1 : @State World) e :
  valid_index self idx ->
  Forall (valid_index self) perm ->
  first_attempt load resample self idx st = (st1, Raise e) ->
  printed (trace (fst (__getitem__ load resample self idx perm st)))
  = printed (trace st)
    ++ [String.append "Failed to load data at: "
          (nth (Z.to_nat idx) (_sources self) "");
        String.append "Reason: " (str e)]
    ++ flat_map (candidate_lines (_sources self)) perm
  /\ world (fst (__getitem__ load resample self idx perm st)) = world st1.
Proof.
  intros Hidx Hperm E.
  destruct (py_index_nth_error (_sources self) idx Hidx) as [path [Hn Hp]].
  destruct (scan_log_valid (_sources self) perm Hperm) as [_ Hlines].
  destruct (first_attempt_trace self idx st) as [Hpr _].
  rewrite E in Hpr. cbn [fst] in Hpr.
  rewrite getitem_cases, E, Hp. cbn [fst trace world].
  split; [|reflexivity].
  rewrite !printed_app, Hlines, Hpr. cbn [printed app].
  rewrite (nth_error_nth _ _ _ Hn). reflexivity.
Qed.

End DatasetExtras.

(** X21.  A constructed dataset keeps its arguments, its length is the
    number of paths, and every valid index has a path and, when labels
    were given, a label. *)
Theorem init_invariant {label : Type} paths (labels : option (list label))
  only_waveform mono sample_rate els self idx :
  __init__ paths labels only_waveform mono sample_rate els = Ok self ->
  valid_index self idx ->
  _sources self = paths
  /\ _labels self = labels
  /\ __len__ self = Z.of_nat (length paths)
  /\ is_ok (py_index (_sources self) idx) = true
  /\ match _labels self with
     | Some ls => is_ok (py_index ls idx) = true
     | None => True
     end.
Proof.
  intros Hinit Hidx.
  destruct (init_ok _ _ _ _ _ _ _ Hinit) as [-> Hlab].
  unfold valid_index, __len__ in *. cbn [_sources _labels] in *.
  repeat split.
  - destruct (py_index_valid paths idx Hidx) as [a ->]. reflexivity.
  - destruct labels as [ls|]; [|exact I].
    destruct (py_index_valid ls idx) as [l ->]; [lia|reflexivity].
Qed.

Lemma init_invariant_witness :
  _sources labelled_scenario = ["valid_A"; "corrupt_B"; "valid_C"]
  /\ _labels labelled_scenario = Some ["a"; "b"; "c"]
  /\ __len__ labelled_scenario = Z.of_nat 3
  /\ is_ok (py_index (_sources labelled_scenario) 2) = true
  /\ match _labels labelled_scenario with
     | Some ls => is_ok (py_index ls 2) = true
     | None => True
     end.
Proof.
  apply (init_invariant ["valid_A"; "corrupt_B"; "valid_C"]
           (Some ["a"; "b"; "c"]) false (Some true) None None
           labelled_scenario 2).
  - reflexivity.
  - unfold valid_index, __len__. simpl. lia.
Defined.

Lemma getitem_returns_requested_only_witness :
  first_attempt demo_load demo_resample scenario 0 st0
  = (mkState tt [Decode "valid_A"],
     Ok (waveform_of (@Track string "valid_A"
                        (PyTensor (Tensor1 [1; 2; 3]%Q)))))
  /\ exists t,
       waveform_of (@Track string "valid_A" (PyTensor (Tensor1 [1; 2; 3]%Q)))
       = PyTensor t.
Proof.
  apply (getitem_returns_requested_only demo_load demo_resample scenario 0
           [0; 1; 2] st0).
  reflexivity.
Defined.

Lemma getitem_error_kinds_witness :
  UnboundLocalError "waveform" = IndexError "list index out of range"
  \/ UnboundLocalError "waveform" = UnboundLocalError "waveform".
Proof.
  apply (getitem_error_kinds demo_load demo_resample scenario 1 [2; 0; 1]
           st0).
  reflexivity.
Defined.

Lemma getitem_with_duration_never_returns_witness :
  is_ok (snd (__getitem__ demo_load demo_resample one_second 0 [0; 1; 2]
                st0)) = false.
Proof.
  apply (getitem_with_duration_never_returns demo_load demo_resample
           one_second 0 [0; 1; 2] st0 (PyInt 1)).
  reflexivity.
Defined.

Lemma getitem_success_shape_witness :
  exists path,
    nth_error ["valid_A"; "corrupt_B"; "valid_C"] (Z.to_nat 2) = Some path
    /\ exists l,
         nth_error ["a"; "b"; "c"] (Z.to_nat 2) = Some l
         /\ __getitem__ demo_load demo_resample labelled_scenario 2
              [0; 1; 2] st0
            = (mkState tt [Decode "valid_C"],
               Ok (TrackLabel path (PyTensor (Tensor1 [4; 5]%Q)) l)).
Proof.
  apply (getitem_success_shape demo_load demo_resample
           ["valid_A"; "corrupt_B"; "valid_C"] (Some ["a"; "b"; "c"]) false
           (Some true) None None labelled_scenario 2 [0; 1; 2] st0
           (mkState tt [Decode "valid_C"]) (PyTensor (Tensor1 [4; 5]%Q))).
  - reflexivity.
  - unfold valid_index, __len__. simpl. lia.
  - reflexivity.
Defined.

Lemma getitem_negative_index_witness :
  __getitem__ demo_load demo_resample labelled_scenario (-1) [0; 1; 2] st0
  = __getitem__ demo_load demo_resample labelled_scenario
      (-1 + __len__ labelled_scenario) [0; 1; 2] st0.
Proof.
  apply (getitem_negative_index demo_load demo_resample
           ["valid_A"; "corrupt_B"; "valid_C"] (Some ["a"; "b"; "c"]) false
           (Some true) None None labelled_scenario (-1) [0; 1; 2] st0).
  - reflexivity.
  - unfold __len__. simpl. lia.
Defined.

Lemma getitem_failure_report_witness :
  printed (trace (fst (__getitem__ demo_load demo_resample scenario 1
                         [2; 0] st0)))
  = printed (trace st0)
    ++ [String.append "Failed to load data at: "
          (nth (Z.to_nat 1) (_sources scenario) "");
        String.append "Reason: " (str (UnboundLocalError "waveform"))]
    ++ flat_map (candidate_lines (_sources scenario)) [2; 0]
  /\ world (fst (__getitem__ demo_load demo_resample scenario 1 [2; 0] st0))
     = world (mkState tt
                [Decode "corrupt_B"; Sleep (1 # 2); Decode "corrupt_B";
                 Sleep (1 # 2); Decode "corrupt_B"; Sleep (1 # 2)]).
Proof.
  apply (getitem_failure_report demo_load demo_resample scenario 1 [2; 0]
           st0).
  - unfold valid_index, __len__. simpl. lia.
  - repeat constructor; unfold __len__; simpl; lia.
  - reflexivity.
Defined.

(** The report of the scenario, line by line. *)
Example scenario_report :
  printed (trace (fst (__getitem__ demo_load demo_resample scenario 1
                         [2; 0] st0)))
  = ["Failed to load data at: corrupt_B";
     "Reason: local variable 'waveform' referenced before assignment";
     "Failed to load audio at: valid_C";
     "Reason: 'AudioDataset' object has no attribute 'load_audio'";
     "Failed to load audio at: valid_A";
     "Reason: 'AudioDataset' object has no attribute 'load_audio'"].
Proof. reflexivity. Qed.
